(** * bdi_api: the S3 transfer endpoints (s4) and the HR read API (s5)

    A shallow embedding of [bdi_api/s4/exercise.py] and
    [bdi_api/s5/exercise.py].  Python integers are unbounded, so they are
    [Z]; Python strings are [string]; the external systems (the HTTP source,
    the S3 bucket, the local disk, the PostgreSQL database) are explicit
    arguments, and every call made on them is recorded as an event. *)

From Stdlib Require Import ZArith List String Ascii Bool Lia.
From Stdlib Require Import QArith DecimalString Sorted Permutation.
Import ListNotations.

Open Scope string_scope.
Open Scope Z_scope.

(** ** Python helpers shared by both routers *)

Module Py.

(** [str(n)] for an [int]. *)
Definition str_int (n : Z) : string := NilZero.string_of_int (Z.to_int n).

Fixpoint zeros (k : nat) : string :=
  match k with
  | O => ""
  | S k' => String "0" (zeros k')
  end.

(** [f"{n:0wd}"]: sign first, then zero fill up to [w] characters, then the
    decimal digits; a number that is already [w] wide is left as it is. *)
Definition format_0d (w : nat) (n : Z) : string :=
  let sign := if n <? 0 then "-" else "" in
  let digits := str_int (Z.abs n) in
  sign ++ zeros (w - String.length sign - String.length digits) ++ digits.

(** [s.split(sep)] for a one-character separator. *)
Fixpoint split (sep : ascii) (s : string) : list string :=
  match s with
  | EmptyString => [""]
  | String c rest =>
      if Ascii.eqb c sep then "" :: split sep rest
      else match split sep rest with
           | [] => [String c ""]
           | piece :: pieces => String c piece :: pieces
           end
  end.




End Py.

(** [bdi_api.settings.Settings] is configuration read from the environment;
    the endpoints only read these fields. *)
Record Settings := {
  source_url : string;
  s3_bucket : string;
  raw_dir : string
}.

(** ** s4: [download_data] and [prepare_data] *)

Module S4.

(** An exception is kept as the message that [print("Error:", e)] shows. *)
Definition exn := string.

(** Calls made on the outside world, in program order. *)
Inductive event :=
| Print (msg : string)
| RequestsGet (url : string) (timeout : Z)
| OpenWrite (filename : string) (data : string)
| UploadFile (Filename Bucket Key : string)
| Unlink (path : string)
| Makedirs (path : string)
| ListObjectsV2 (Bucket Prefix : string)
| DownloadFile (Bucket Key Filename : string).

Record Response := { status_code : Z; content : string }.

(** What the outside world answers during one pass of the loop: the result
    of [requests.get], and whether writing the temporary file, the upload
    and the unlink raise. *)
Record attempt_env := {
  env_get : exn + Response;
  env_write : option exn;
  env_upload : option exn;
  env_unlink : option exn
}.

(** The world seen by [download_data]: the answers to attempt 0, 1, 2, ... *)
Definition world := nat -> attempt_env.

Definition later (w : world) : world := fun i => w (S i).

(** The body of a [try] block: the calls made so far and either the
    exception that ended it or its value. *)
Definition Try (A : Type) : Type := list event * (exn + A).

Definition ret {A} (a : A) : Try A := ([], inr a).

Definition bind {A B} (m : Try A) (k : A -> Try B) : Try B :=
  match m with
  | (t, inl e) => (t, inl e)
  | (t, inr a) => let (t', r) := k a in ((t ++ t')%list, r)
  end.

Notation "x <- m ;; k" := (bind m (fun x => k))
  (at level 61, m at next level, right associativity).
Notation "m ;;; k" := (bind m (fun _ => k))
  (at level 61, right associativity).

(** A call that returns nothing and may raise. *)
Definition call (ev : event) (raised : option exn) : Try unit :=
  ([ev], match raised with Some e => inl e | None => inr tt end).

(** A call that returns a value or raises. *)
Definition call_val {A} (ev : event) (r : exn + A) : Try A := ([ev], r).

Definition say (msg : string) : Try unit := ([Print msg], inr tt).

(** How the [try] body is left when nothing is raised. *)
Inductive try_exit := Skipped | Uploaded.

Definition s3_prefix_path : string := "raw/day=20231101/".

Definition base_url (cfg : Settings) : string :=
  source_url cfg ++ "/2023/11/01/".

(** [f"{hh:02d}{mm:02d}{ss:02d}Z.json.gz"] *)
Definition filename_at (seconds : Z) : string :=
  let hh := seconds / 3600 in
  let mm := (seconds mod 3600) / 60 in
  let ss := seconds mod 60 in
  Py.format_0d 2 hh ++ Py.format_0d 2 mm ++ Py.format_0d 2 ss ++ "Z.json.gz".

(** Lines 73-97: the [try] body of one pass. *)
Definition try_body (cfg : Settings) (a : attempt_env)
    (filename file_url : string) : Try try_exit :=
  r <- call_val (RequestsGet file_url 20) (env_get a) ;;
  if negb (status_code r =? 200) then
    say ("Skipping (not found): " ++ filename) ;;;
    ret Skipped
  else
    call (OpenWrite filename (content r)) (env_write a) ;;;
    say ("Uploading to S3: " ++ filename) ;;;
    call (UploadFile filename (s3_bucket cfg) (s3_prefix_path ++ filename))
         (env_upload a) ;;;
    call (Unlink filename) (env_unlink a) ;;;
    ret Uploaded.

(** The loop variables. *)
Record vars := { downloaded : Z; seconds : Z }.

(** What is recorded of one pass: the value of [seconds] at its start and
    the calls it made. *)
Record attempt_log := { at_seconds : Z; at_events : list event }.

(** Lines 61-103: one pass of the [while] loop.  The non-200 branch adds 5
    and [continue]s; the other two paths fall through to line 103. *)
Definition loop_body (cfg : Settings) (a : attempt_env) (v : vars)
    : vars * attempt_log :=
  let filename := filename_at (seconds v) in
  let file_url := base_url cfg ++ filename in
  let '(t0, _) := say ("Downloading: " ++ filename) in
  match try_body cfg a filename file_url with
  | (t, inr Skipped) =>
      ({| downloaded := downloaded v; seconds := seconds v + 5 |},
       {| at_seconds := seconds v; at_events := t0 ++ t |})
  | (t, inr Uploaded) =>
      let downloaded' := downloaded v + 1 in
      ({| downloaded := downloaded'; seconds := seconds v + 5 |},
       {| at_seconds := seconds v; at_events := t0 ++ t |})
  | (t, inl e) =>
      ({| downloaded := downloaded v; seconds := seconds v + 5 |},
       {| at_seconds := seconds v;
          at_events := t0 ++ t ++ [Print ("Error: " ++ e)] |})
  end%list.

(** How a run ends: it returns, or the loop is still going after the
    passes that were followed. *)
Inductive outcome := Returned (value : string) | StillLooping.

(** Lines 60-105.  [fuel] bounds the number of passes that are followed;
    the loop test comes first, so a run that needs no pass needs no fuel. *)
Fixpoint download_loop (cfg : Settings) (fuel : nat) (w : world)
    (file_limit : Z) (v : vars) : outcome * list attempt_log :=
  if downloaded v <? file_limit then
    match fuel with
    | O => (StillLooping, [])
    | S fuel' =>
        let (v', log) := loop_body cfg (w O) v in
        let (res, logs) := download_loop cfg fuel' (later w) file_limit v' in
        (res, log :: logs)
    end
  else (Returned "OK", []).

Definition download_data (cfg : Settings) (fuel : nat) (w : world)
    (file_limit : Z) : outcome * list attempt_log :=
  download_loop cfg fuel w file_limit {| downloaded := 0; seconds := 0 |}.

(** All calls of a run, and the uploads among them. *)
Definition calls (logs : list attempt_log) : list event :=
  flat_map at_events logs.

Definition is_upload (ev : event) : bool :=
  match ev with UploadFile _ _ _ => true | _ => false end.

Definition is_get (ev : event) : bool :=
  match ev with RequestsGet _ _ => true | _ => false end.

Definition uploads (logs : list attempt_log) : list event :=
  filter is_upload (calls logs).

(** Conditions on one attempt's answers. *)
Definition returns_200 (a : attempt_env) : bool :=
  match env_get a with
  | inr r => status_code r =? 200
  | inl _ => false
  end.

Definition no_raise (r : option exn) : bool :=
  match r with None => true | Some _ => false end.

(** The upload of a fetched file goes through: the temporary file is
    written, [upload_file] returns and the temporary file is unlinked, none
    of the three raising (lines 84-95). *)
Definition upload_succeeds (a : attempt_env) : bool :=
  no_raise (env_write a) && no_raise (env_upload a)
  && no_raise (env_unlink a).

(** The attempt answers 200 and its upload goes through: it reaches
    [downloaded += 1]. *)
Definition counted (a : attempt_env) : bool :=
  returns_200 a && upload_succeeds a.

(** The same with the local disk left out: [upload_file] alone, and the
    write and unlink of the temporary file. *)
Definition upload_ok (a : attempt_env) : bool := no_raise (env_upload a).

Definition local_file_ok (a : attempt_env) : bool :=
  no_raise (env_write a) && no_raise (env_unlink a).

Definition fetched_and_uploaded (a : attempt_env) : bool :=
  returns_200 a && upload_ok a.

(** Number of attempts among the first [k] that satisfy [p]. *)
Definition count_first (p : attempt_env -> bool) (w : world) (k : nat) : nat :=
  List.length (filter p (map w (seq 0 k))).

(** The calls of a pass that reaches the end of the [try] body. *)
Definition full_pass (cfg : Settings) (filename data : string) : list event :=
  [Print ("Downloading: " ++ filename);
   RequestsGet (base_url cfg ++ filename) 20;
   OpenWrite filename data;
   Print ("Uploading to S3: " ++ filename);
   UploadFile filename (s3_bucket cfg) (s3_prefix_path ++ filename);
   Unlink filename].

(** Sample worlds. *)

(** The bucket refuses every upload. *)
Definition upload_denied : world := fun _ =>
  {| env_get := inr {| status_code := 200; content := "fake data" |};
     env_write := None; env_upload := Some "AccessDenied";
     env_unlink := None |}.

Definition always_200 : world := fun _ =>
  {| env_get := inr {| status_code := 200; content := "fake data" |};
     env_write := None; env_upload := None; env_unlink := None |}.

Definition always_404 : world := fun _ =>
  {| env_get := inr {| status_code := 404; content := "" |};
     env_write := None; env_upload := None; env_unlink := None |}.

(** An exception, then a 404, then files that are there. *)
Definition mixed_world : world := fun i =>
  match i with
  | O => {| env_get := inl "connection timed out";
            env_write := None; env_upload := None; env_unlink := None |}
  | S O => always_404 i
  | _ => always_200 i
  end.

Definition sample_cfg : Settings :=
  {| source_url := "https://samples.adsbexchange.com/readsb-hist";
     s3_bucket := "bdi-test"; raw_dir := "data/raw" |}.

(** *** [prepare_data] *)











(** *** Reading an offset back from a file name *)

Definition digit_of (c : ascii) : option Z :=
  let n := Z.of_nat (nat_of_ascii c) in
  if (48 <=? n) && (n <=? 57) then Some (n - 48) else None.

Definition two_digits (s : string) : option (Z * string) :=
  match s with
  | String a (String b rest) =>
      match digit_of a, digit_of b with
      | Some x, Some y => Some (10 * x + y, rest)
      | _, _ => None
      end
  | _ => None
  end.

(** The seconds that [HHMMSSZ.json.gz] stands for. *)
Definition offset_of_filename (s : string) : option Z :=
  match two_digits s with
  | Some (hh, s1) =>
      match two_digits s1 with
      | Some (mm, s2) =>
          match two_digits s2 with
          | Some (ss, rest) =>
              if String.eqb rest "Z.json.gz"
              then Some (hh * 3600 + mm * 60 + ss)
              else None
          | None => None
          end
      | None => None
      end
  | None => None
  end.

(** Calls that change the local disk or the bucket. *)
Definition is_effect (ev : event) : bool :=
  match ev with
  | OpenWrite _ _ | UploadFile _ _ _ | Unlink _ => true
  | _ => false
  end.


End S4.

(** ** s5: the HR database endpoints *)

Module S5.

Definition exn := string.

(** *** The tables *)

(** Modelled from the spec: [hr_schema.sql] is not part of the sources.
    The columns are the ones the queries name; the specification lists the
    entities (section 3) and the foreign keys (section 8).  A nullable
    reference is an [option]. *)
Record Department := { d_id : Z; d_name : string; d_location : string }.

Record Employee := {
  e_id : Z;
  e_first_name : string;
  e_last_name : string;
  e_email : string;
  e_salary : Z;
  e_department_id : option Z;
  e_hire_date : string
}.

Record Project := { p_id : Z; p_name : string }.

Record EmployeeProject := { ep_employee_id : Z; ep_project_id : Z }.

Record SalaryHistory := {
  sh_employee_id : Z;
  sh_change_date : string;
  sh_old_salary : Z;
  sh_new_salary : Z;
  sh_reason : string
}.

Record Database := {
  department : list Department;
  employee : list Employee;
  project : list Project;
  employee_project : list EmployeeProject;
  salary_history : list SalaryHistory
}.

Inductive table :=
| t_salary_history | t_employee_project | t_employee | t_project
| t_department.

Definition table_eqb (a b : table) : bool :=
  match a, b with
  | t_salary_history, t_salary_history
  | t_employee_project, t_employee_project
  | t_employee, t_employee
  | t_project, t_project
  | t_department, t_department => true
  | _, _ => false
  end.

(** Modelled from the spec: the foreign keys of [hr_schema.sql], as section 8
    of the specification lists them (employee -> department,
    employee_project -> employee and project, salary_history -> employee). *)
Definition references (t : table) : list table :=
  match t with
  | t_salary_history => [t_employee]
  | t_employee_project => [t_employee; t_project]
  | t_employee => [t_department]
  | t_project => []
  | t_department => []
  end.

Definition has_department (db : Database) (id : Z) : bool :=
  existsb (fun d => d_id d =? id) (department db).

Definition has_employee (db : Database) (id : Z) : bool :=
  existsb (fun e => e_id e =? id) (employee db).

Definition has_project (db : Database) (id : Z) : bool :=
  existsb (fun p => p_id p =? id) (project db).

Definition fk_employee_department (db : Database) : bool :=
  forallb (fun e => match e_department_id e with
                    | None => true
                    | Some d => has_department db d
                    end) (employee db).

Definition fk_employee_project (db : Database) : bool :=
  forallb (fun ep => has_employee db (ep_employee_id ep)
                     && has_project db (ep_project_id ep))
          (employee_project db).

Definition fk_salary_history (db : Database) : bool :=
  forallb (fun sh => has_employee db (sh_employee_id sh)) (salary_history db).

(** Every foreign key is satisfied. *)
Definition fk_ok (db : Database) : bool :=
  fk_employee_department db && fk_employee_project db && fk_salary_history db.

(** *** [seed_database]: the delete phase *)

(** [DELETE FROM t;] without a [WHERE]: the table becomes empty. *)
Definition delete_from (t : table) (db : Database) : Database :=
  match t with
  | t_salary_history =>
      {| department := department db; employee := employee db;
         project := project db; employee_project := employee_project db;
         salary_history := [] |}
  | t_employee_project =>
      {| department := department db; employee := employee db;
         project := project db; employee_project := [];
         salary_history := salary_history db |}
  | t_employee =>
      {| department := department db; employee := [];
         project := project db; employee_project := employee_project db;
         salary_history := salary_history db |}
  | t_project =>
      {| department := department db; employee := employee db;
         project := []; employee_project := employee_project db;
         salary_history := salary_history db |}
  | t_department =>
      {| department := []; employee := employee db;
         project := project db; employee_project := employee_project db;
         salary_history := salary_history db |}
  end.

(** Lines 72-77: the statements of the first [cur.execute], in order. *)
Definition delete_statements : list table :=
  [t_salary_history; t_employee_project; t_employee; t_project; t_department].

(** The server checks the foreign keys when a statement ends and aborts the
    script at the first statement that breaks one. *)
Definition exec_delete (t : table) (db : Database) : exn + Database :=
  let db' := delete_from t db in
  if fk_ok db' then inr db'
  else inl "update or delete violates foreign key constraint".

(** Runs the statements in order; returns the states reached after each
    statement that completed, and the error if one did not. *)
Fixpoint exec_deletes (ts : list table) (db : Database)
    : list Database * option exn :=
  match ts with
  | [] => ([], None)
  | t :: rest =>
      match exec_delete t db with
      | inl e => ([], Some e)
      | inr db' =>
          let (states, err) := exec_deletes rest db' in
          (db' :: states, err)
      end
  end.

(** Lines 63-91.  [seed_sql] is the effect of the script read from
    [hr_seed_data.sql], which is not part of the sources. *)
Definition seed_database (seed_sql : Database -> exn + Database)
    (db : Database) : exn + (string * Database) :=
  match exec_deletes delete_statements db with
  | (_, Some e) => inl e
  | (states, None) =>
      match seed_sql (last states db) with
      | inl e => inl e
      | inr db' => inr ("OK", db')
      end
  end.

(** Position of a table in a script. *)
Fixpoint position (t : table) (ts : list table) : option nat :=
  match ts with
  | [] => None
  | t' :: rest =>
      if table_eqb t t' then Some O
      else option_map S (position t rest)
  end.

Definition is_empty (db : Database) : bool :=
  match department db, employee db, project db, employee_project db,
        salary_history db with
  | [], [], [], [], [] => true
  | _, _, _, _, _ => false
  end.

(** *** SQL building blocks *)

Definition inner_join {A B} (on : A -> B -> bool) (l : list A) (r : list B)
    : list (A * B) :=
  flat_map (fun a => map (pair a) (filter (on a) r)) l.

(** A left row with no partner is kept once, with NULLs on the right. *)
Definition left_join {A B} (on : A -> B -> bool) (l : list A) (r : list B)
    : list (A * option B) :=
  flat_map (fun a => match filter (on a) r with
                     | [] => [(a, None)]
                     | bs => map (fun b => (a, Some b)) bs
                     end) l.

(** [ORDER BY key] ascending on an integer column: a stable insertion sort. *)
Fixpoint insert_by {R} (key : R -> Z) (x : R) (l : list R) : list R :=
  match l with
  | [] => [x]
  | y :: l' => if key x <=? key y then x :: l
               else y :: insert_by key x l'
  end.

Fixpoint order_by {R} (key : R -> Z) (l : list R) : list R :=
  match l with
  | [] => []
  | x :: l' => insert_by key x (order_by key l')
  end.

(** Rows in ascending order of a key. *)
Definition ascending {R} (key : R -> Z) : list R -> Prop :=
  StronglySorted (fun a b => key a <= key b).

(** The range of the server's [bigint], the type of [LIMIT] and [OFFSET]. *)
Definition bigint_max : Z := 9223372036854775807.
Definition bigint_min : Z := -9223372036854775808.

Definition in_bigint (x : Z) : bool := (bigint_min <=? x) && (x <=? bigint_max).

(** [LIMIT n OFFSET m].  The two integers reach the server as literals: one
    that does not fit a [bigint] is refused when the statement is planned;
    when it runs, a negative offset is refused, then a negative limit. *)
Definition limit_offset {R} (n m : Z) (rows : list R) : exn + list R :=
  if negb (in_bigint n && in_bigint m) then inl "bigint out of range"
  else if m <? 0 then inl "OFFSET must not be negative"
  else if n <? 0 then inl "LIMIT must not be negative"
  else inr (firstn (Z.to_nat n) (skipn (Z.to_nat m) rows)).

(** The values of a list without repetition, in order of first occurrence. *)
Fixpoint distinct {K} (eqb : K -> K -> bool) (ks : list K) : list K :=
  match ks with
  | [] => []
  | k :: ks' => k :: filter (fun k' => negb (eqb k' k)) (distinct eqb ks')
  end.

(** [GROUP BY key]: one group per distinct key, holding the rows with it. *)
Definition group_by {K R} (eqb : K -> K -> bool) (key : R -> K)
    (rows : list R) : list (K * list R) :=
  map (fun k => (k, filter (fun r => eqb (key r) k) rows))
      (distinct eqb (map key rows)).

(** The non-NULL values of a column. *)
Definition non_null {R V} (col : R -> option V) (rows : list R) : list V :=
  flat_map (fun r => match col r with Some v => [v] | None => [] end) rows.

Definition sum_Z (l : list Z) : Z := fold_right Z.add 0 l.

(** [COUNT(col)] counts the rows where the column is not NULL. *)
Definition sql_count {V} (vals : list V) : Z := Z.of_nat (List.length vals).

(** [AVG(col)] over the non-NULL values; NULL when there is none.  This is
    the exact mean: the server returns it as a NUMERIC, rounded to that
    type's scale (16 fractional digits for these magnitudes). *)
Definition sql_avg (vals : list Z) : option Q :=
  match vals with
  | [] => None
  | _ => Some (Qred (sum_Z vals # Pos.of_nat (List.length vals)))
  end.

(** [fetchone()] *)
Definition fetchone {R} (rows : list R) : option R := hd_error rows.

(** *** [list_employees] *)

Record EmployeeListing := {
  id : Z;
  first_name : string;
  last_name : string;
  email : string;
  salary : Z;
  department_name : string
}.

Definition employee_listing (row : Employee * Department) : EmployeeListing :=
  let e := fst row in
  let d := snd row in
  {| id := e_id e; first_name := e_first_name e; last_name := e_last_name e;
     email := e_email e; salary := e_salary e; department_name := d_name d |}.

Definition in_department (e : Employee) (dept : Z) : bool :=
  match e_department_id e with
  | Some k => k =? dept
  | None => false
  end.

(** [FROM employee e JOIN department d ON e.department_id=d.id ORDER BY e.id] *)
Definition employees_joined (db : Database) : list (Employee * Department) :=
  order_by (fun row => e_id (fst row))
    (inner_join (fun e d => in_department e (d_id d))
                (employee db) (department db)).

(** The employee's department reference is set and names a row of
    [department]. *)
Definition has_existing_department (db : Database) (e : Employee) : bool :=
  match e_department_id e with
  | Some k => has_department db k
  | None => false
  end.

(** [department.id] is a key: the target of a foreign key is unique. *)
Definition department_key (db : Database) : Prop :=
  NoDup (map d_id (department db)).

(** Lines 112-140. *)
Definition list_employees (db : Database) (page per_page : Z)
    : exn + list EmployeeListing :=
  let offset := (page - 1) * per_page in
  match limit_offset per_page offset (employees_joined db) with
  | inl e => inl e
  | inr rows => inr (map employee_listing rows)
  end.

(** *** [list_department_employees] *)

Record DepartmentEmployee := {
  de_id : Z;
  de_first_name : string;
  de_last_name : string;
  de_email : string;
  de_salary : Z;
  de_hire_date : string
}.

Definition department_employee (e : Employee) : DepartmentEmployee :=
  {| de_id := e_id e; de_first_name := e_first_name e;
     de_last_name := e_last_name e; de_email := e_email e;
     de_salary := e_salary e; de_hire_date := e_hire_date e |}.

(** What the handler hands back: a list of rows or a dict. *)
Inductive py_value (R : Type) :=
| PyList (rows : list R)
| PyDict (items : list (string * string)).
Arguments PyList {R} rows.
Arguments PyDict {R} items.

(** [rows or alt]: an empty list is falsy. *)
Definition py_or {R} (rows : list R) (alt : py_value R) : py_value R :=
  match rows with
  | [] => alt
  | _ :: _ => PyList rows
  end.

(** Lines 144-161. *)
Definition list_department_employees (db : Database) (dept_id : Z)
    : py_value DepartmentEmployee :=
  let department_employees :=
    map department_employee
      (order_by e_id (filter (fun e => in_department e dept_id) (employee db)))
  in
  py_or department_employees (PyDict []).

(** *** [department_stats] *)

Record DepartmentStats := {
  st_department_name : string;
  employee_count : Z;
  avg_salary : option Q;
  project_count : Z
}.

Abbreviation stats_row :=
  (Department * option Employee * option EmployeeProject)%type.

(** [FROM department d LEFT JOIN employee e ON e.department_id=d.id
     LEFT JOIN employee_project ep ON ep.employee_id=e.id] *)
Definition stats_join (db : Database) : list stats_row :=
  left_join (fun (de : Department * option Employee) ep =>
               match snd de with
               | Some e => ep_employee_id ep =? e_id e
               | None => false
               end)
    (left_join (fun d e => in_department e (d_id d))
               (department db) (employee db))
    (employee_project db).

Definition stats_key (r : stats_row) : Z * string :=
  (d_id (fst (fst r)), d_name (fst (fst r))).

Definition key_eqb (a b : Z * string) : bool :=
  (fst a =? fst b) && String.eqb (snd a) (snd b).

(** The select list, evaluated on one group. *)
Definition stats_of_group (g : (Z * string) * list stats_row)
    : DepartmentStats :=
  let (k, rows) := g in
  {| st_department_name := snd k;
     employee_count :=
       sql_count (non_null (fun r => option_map e_id (snd (fst r))) rows);
     avg_salary :=
       sql_avg (non_null (fun r => option_map e_salary (snd (fst r))) rows);
     project_count :=
       sql_count (distinct Z.eqb
         (non_null (fun r => option_map ep_project_id (snd r)) rows)) |}.

(** Lines 165-189; [None] is what [fetchone] gives on an empty result. *)
Definition department_stats (db : Database) (dept_id : Z)
    : option DepartmentStats :=
  let rows :=
    filter (fun r => d_id (fst (fst r)) =? dept_id) (stats_join db) in
  fetchone (map stats_of_group (group_by key_eqb stats_key rows)).

(** *** What the specification asks of [department_stats] *)

Definition employees_of (db : Database) (dept_id : Z) : list Employee :=
  filter (fun e => in_department e dept_id) (employee db).

(** Number of employees of the department. *)
Definition headcount (db : Database) (dept_id : Z) : Z :=
  Z.of_nat (List.length (employees_of db dept_id)).

(** Average of the salaries of the employees of the department. *)
Definition mean_salary (db : Database) (dept_id : Z) : option Q :=
  sql_avg (map e_salary (employees_of db dept_id)).

(** Number of distinct projects that employees of the department are
    assigned to. *)
Definition projects_of (db : Database) (dept_id : Z) : Z :=
  sql_count (distinct Z.eqb
    (map ep_project_id
       (filter (fun ep => existsb (fun e => e_id e =? ep_employee_id ep)
                                  (employees_of db dept_id))
               (employee_project db)))).

(** *** [salary_history] *)

(** [ORDER BY] on a column that is not an integer: a stable insertion sort
    for the order [leb] of the column's type. *)
Fixpoint insert_le {R} (leb : R -> R -> bool) (x : R) (l : list R) : list R :=
  match l with
  | [] => [x]
  | y :: l' => if leb x y then x :: l else y :: insert_le leb x l'
  end.

Fixpoint order_by_le {R} (leb : R -> R -> bool) (l : list R) : list R :=
  match l with
  | [] => []
  | x :: l' => insert_le leb x (order_by_le leb l')
  end.

Record SalaryChange := {
  change_date : string;
  old_salary : Z;
  new_salary : Z;
  reason : string
}.

Definition salary_change (sh : SalaryHistory) : SalaryChange :=
  {| change_date := sh_change_date sh; old_salary := sh_old_salary sh;
     new_salary := sh_new_salary sh; reason := sh_reason sh |}.

(** The rows of [salary_history] of one employee. *)
Definition changes_of (db : Database) (emp_id : Z) : list SalaryHistory :=
  filter (fun sh => sh_employee_id sh =? emp_id) (salary_history db).

(** Lines 193-210, the handler [salary_history]; the name is taken by the
    table.  [date_leb] is the server's order on dates. *)
Definition salary_history_of (date_leb : string -> string -> bool)
    (db : Database) (emp_id : Z) : list SalaryChange :=
  map salary_change
    (order_by_le (fun a b => date_leb (sh_change_date a) (sh_change_date b))
       (changes_of db emp_id)).

(** *** Reading [list_employees] page after page *)

Definition page_rows (db : Database) (page per_page : Z)
    : list EmployeeListing :=
  match list_employees db page per_page with
  | inr rows => rows
  | inl _ => []
  end.

(** Pages 1 to [k], one after the other. *)
Definition pages_upto (db : Database) (per_page : Z) (k : nat)
    : list EmployeeListing :=
  flat_map (fun i => page_rows db (Z.of_nat (S i)) per_page) (seq 0 k).

(** *** What [department_stats] aggregates over *)

(** The assignments of an employee. *)
Definition assignments (db : Database) (e : Employee)
    : list EmployeeProject :=
  filter (fun ep => ep_employee_id ep =? e_id e) (employee_project db).

(** The number of join rows an employee gives: one per assignment, and one
    when there is none. *)
Definition fan_out (db : Database) (e : Employee) : nat :=
  Nat.max 1 (List.length (assignments db e)).

(** The employees of a department, each as often as it has join rows. *)
Definition weighted (db : Database) (dept_id : Z) : list Employee :=
  flat_map (fun e => repeat e (fan_out db e)) (employees_of db dept_id).

(** The join rows of one employee of department [d], and of the whole
    department. *)
Definition employee_rows (db : Database) (d : Department) (e : Employee)
    : list stats_row :=
  match assignments db e with
  | [] => [(d, Some e, None)]
  | eps => map (fun ep => (d, Some e, Some ep)) eps
  end.

Definition department_rows (db : Database) (d : Department)
    : list stats_row :=
  match employees_of db (d_id d) with
  | [] => [(d, None, None)]
  | es => flat_map (employee_rows db d) es
  end.

Definition empty_db : Database :=
  {| department := []; employee := []; project := [];
     employee_project := []; salary_history := [] |}.

(** *** Sample databases *)

Definition dept_eng : Department :=
  {| d_id := 1; d_name := "Engineering"; d_location := "Barcelona" |}.
Definition dept_ops : Department :=
  {| d_id := 2; d_name := "Operations"; d_location := "Madrid" |}.

Definition emp (i : Z) (name : string) (pay : Z) (dept : option Z) : Employee :=
  {| e_id := i; e_first_name := name; e_last_name := "Doe";
     e_email := name ++ "@example.com"; e_salary := pay;
     e_department_id := dept; e_hire_date := "2020-01-01" |}.

Definition sample_db : Database :=
  {| department := [dept_eng; dept_ops];
     employee := [emp 2 "bo" 200 (Some 1); emp 1 "al" 100 (Some 1);
                  emp 3 "cy" 300 None];
     project := [ {| p_id := 10; p_name := "alpha" |};
                  {| p_id := 11; p_name := "beta" |} ];
     employee_project := [ {| ep_employee_id := 1; ep_project_id := 10 |};
                           {| ep_employee_id := 1; ep_project_id := 11 |} ];
     salary_history := [ {| sh_employee_id := 1; sh_change_date := "2021-01-01";
                            sh_old_salary := 90; sh_new_salary := 100;
                            sh_reason := "raise" |} ] |}.

(** The sample database with a single assignment. *)
Definition flat_db : Database :=
  {| department := department sample_db; employee := employee sample_db;
     project := project sample_db;
     employee_project := [ {| ep_employee_id := 1; ep_project_id := 10 |} ];
     salary_history := salary_history sample_db |}.

(** A seed script that replaces the content by the sample rows. *)
Definition sample_seed (db : Database) : exn + Database :=
  match department db, employee db with
  | [], [] => inr sample_db
  | _, _ => inl "duplicate key value violates unique constraint"
  end.

End S5.

(** * Properties of the s4 endpoints *)

Module S4Facts.
Import S4.

(** ** The file name *)

(** Below 100, the [02d] format gives exactly two characters. *)
Lemma format_0d_two_digits n :
  0 <= n < 100 -> String.length (Py.format_0d 2 n) = 2%nat.
Proof.
  intros Hn.
  assert (Hk : exists k, (k < 100)%nat /\ n = Z.of_nat k)
    by (exists (Z.to_nat n); lia).
  destruct Hk as (k & Hk & ->). clear Hn.
  do 100 (destruct k as [| k]; [reflexivity |]). lia.
Qed.

Lemma length_append a b :
  String.length (a ++ b) = (String.length a + String.length b)%nat.
Proof. induction a as [| c a IH]; simpl; [| rewrite IH]; reflexivity. Qed.

(** During the first hundred hours the name is six digits and the suffix. *)
Lemma filename_at_length seconds :
  0 <= seconds < 360000 -> String.length (filename_at seconds) = 15%nat.
Proof.
  intros H. unfold filename_at. rewrite !length_append.
  rewrite !format_0d_two_digits; [reflexivity | | |].
  - pose proof (Z.mod_pos_bound seconds 60). lia.
  - pose proof (Z.mod_pos_bound seconds 3600 ltac:(lia)).
    split; [apply Z.div_pos; lia |].
    apply Z.div_lt_upper_bound; lia.
  - split; [apply Z.div_pos; lia |].
    apply Z.div_lt_upper_bound; lia.
Qed.

(** ** One pass of the loop *)

Section OnePass.
Variable cfg : Settings.

(** The three ways out of a pass all add 5 to [seconds]. *)
Lemma loop_body_seconds a v :
  seconds (fst (loop_body cfg a v)) = seconds v + 5.
Proof.
  unfold loop_body, try_body, call_val, call, say, bind, ret.
  destruct (env_get a) as [e | r]; cbn; [reflexivity |].
  destruct (status_code r =? 200); cbn; [| reflexivity].
  destruct (env_write a), (env_upload a), (env_unlink a); reflexivity.
Qed.

(** The counter moves exactly on the attempts that are [counted]. *)
Lemma loop_body_downloaded a v :
  downloaded (fst (loop_body cfg a v)) =
  downloaded v + (if counted a then 1 else 0).
Proof.
  unfold loop_body, try_body, call_val, call, say, bind, ret.
  unfold counted, upload_succeeds, returns_200, no_raise.
  destruct (env_get a) as [e | r]; cbn; [lia |].
  destruct (status_code r =? 200); cbn; [| lia].
  destruct (env_write a), (env_upload a), (env_unlink a); cbn; lia.
Qed.

Lemma loop_body_at_seconds a v :
  at_seconds (snd (loop_body cfg a v)) = seconds v.
Proof.
  unfold loop_body, try_body, call_val, call, say, bind, ret.
  destruct (env_get a) as [e | r]; cbn; [reflexivity |].
  destruct (status_code r =? 200); cbn; [| reflexivity].
  destruct (env_write a), (env_upload a), (env_unlink a); reflexivity.
Qed.

(** Every pass announces the file and fetches its URL, once. *)
Lemma loop_body_fetch a v :
  let filename := filename_at (seconds v) in
  (exists rest,
     at_events (snd (loop_body cfg a v)) =
     Print ("Downloading: " ++ filename)
     :: RequestsGet (base_url cfg ++ filename) 20 :: rest)
  /\ filter is_get (at_events (snd (loop_body cfg a v))) =
     [RequestsGet (base_url cfg ++ filename) 20].
Proof.
  unfold loop_body, try_body, call_val, call, say, bind, ret.
  destruct (env_get a) as [e | r]; cbn; [eauto |].
  destruct (status_code r =? 200); cbn; [| eauto].
  destruct (env_write a), (env_upload a), (env_unlink a); cbn; eauto.
Qed.

Lemma loop_body_counted a v :
  counted a = true ->
  exists data,
    at_events (snd (loop_body cfg a v)) =
    full_pass cfg (filename_at (seconds v)) data.
Proof.
  unfold counted, upload_succeeds, returns_200, no_raise.
  unfold loop_body, try_body, call_val, call, say, bind, ret, full_pass.
  destruct (env_get a) as [e | r]; cbn; [discriminate |].
  destruct (status_code r =? 200); cbn; [| discriminate].
  destruct (env_write a), (env_upload a), (env_unlink a); cbn;
    try discriminate.
  intros _. exists (content r). reflexivity.
Qed.

End OnePass.

(** ** The loop *)

Section Loop.
Variable cfg : Settings.

Lemma download_loop_done fuel w limit v :
  limit <= downloaded v ->
  download_loop cfg fuel w limit v = (Returned "OK", []).
Proof.
  intros H. destruct fuel; simpl;
    destruct (Z.ltb_spec (downloaded v) limit); try lia; reflexivity.
Qed.

Lemma download_loop_step fuel w limit v :
  downloaded v < limit ->
  download_loop cfg (S fuel) w limit v =
  (fst (download_loop cfg fuel (later w) limit (fst (loop_body cfg (w O) v))),
   snd (loop_body cfg (w O) v)
   :: snd (download_loop cfg fuel (later w) limit
             (fst (loop_body cfg (w O) v)))).
Proof.
  intros H. simpl.
  destruct (Z.ltb_spec (downloaded v) limit); try lia.
  destruct (loop_body cfg (w O) v) as [v' log]. simpl.
  destruct (download_loop cfg fuel (later w) limit v'). reflexivity.
Qed.

Lemma download_loop_out_of_fuel w limit v :
  downloaded v < limit ->
  download_loop cfg O w limit v = (StillLooping, []).
Proof.
  intros H. simpl.
  destruct (Z.ltb_spec (downloaded v) limit); try lia; reflexivity.
Qed.

(** A run either returns ["OK"] or is still in the loop. *)
Lemma download_loop_outcome fuel w limit v :
  fst (download_loop cfg fuel w limit v) = Returned "OK"
  \/ fst (download_loop cfg fuel w limit v) = StillLooping.
Proof.
  revert w v. induction fuel as [| fuel IH]; intros w v;
    destruct (Z.lt_ge_cases (downloaded v) limit) as [Hlt | Hge].
  - rewrite download_loop_out_of_fuel by assumption. auto.
  - rewrite download_loop_done by assumption. auto.
  - rewrite download_loop_step by assumption. apply IH.
  - rewrite download_loop_done by assumption. auto.
Qed.

(** The [i]-th pass starts [5 * i] seconds after the first one, and fetches
    the file named after its own offset. *)
Lemma download_loop_nth fuel : forall w limit v i a,
  nth_error (snd (download_loop cfg fuel w limit v)) i = Some a ->
  at_seconds a = seconds v + 5 * Z.of_nat i
  /\ (exists rest,
        at_events a =
        Print ("Downloading: " ++ filename_at (at_seconds a))
        :: RequestsGet (base_url cfg ++ filename_at (at_seconds a)) 20
        :: rest)
  /\ filter is_get (at_events a) =
     [RequestsGet (base_url cfg ++ filename_at (at_seconds a)) 20].
Proof.
  induction fuel as [| fuel IH]; intros w limit v i a Hnth;
    destruct (Z.lt_ge_cases (downloaded v) limit) as [Hlt | Hge];
    try (rewrite download_loop_done in Hnth by assumption;
         destruct i; discriminate).
  - rewrite download_loop_out_of_fuel in Hnth by assumption.
    destruct i; discriminate.
  - rewrite download_loop_step in Hnth by assumption. simpl snd in Hnth.
    destruct i as [| i]; simpl in Hnth.
    + injection Hnth as <-.
      rewrite loop_body_at_seconds.
      destruct (loop_body_fetch cfg (w O) v) as [Hhead Hget].
      split; [simpl; lia | split; assumption].
    + apply IH in Hnth. rewrite loop_body_seconds in Hnth.
      destruct Hnth as [Hsec Hrest]. split; [lia | exact Hrest].
Qed.

(** Counting over the first attempts, one attempt at a time. *)
Lemma count_first_succ p w k :
  count_first p w (S k) =
  ((if p (w O) then 1 else 0) + count_first p (later w) k)%nat.
Proof.
  unfold count_first. rewrite <- cons_seq, <- seq_shift. simpl.
  rewrite map_map. unfold later.
  destruct (p (w O)); reflexivity.
Qed.

Lemma count_first_ext p q w k :
  (forall i, p (w i) = q (w i)) ->
  count_first p w k = count_first q w k.
Proof.
  intros H. unfold count_first. f_equal.
  induction (seq 0 k) as [| i l IH]; simpl; [reflexivity |].
  rewrite H, IH. reflexivity.
Qed.

Lemma count_first_none p w k :
  (forall i, p (w i) = false) -> count_first p w k = O.
Proof.
  intros H. unfold count_first.
  induction (seq 0 k) as [| i l IH]; simpl; [reflexivity |].
  rewrite H. exact IH.
Qed.

(** The run returns within [fuel] passes exactly when enough of the first
    [fuel] attempts are counted. *)
Lemma download_loop_returns_iff fuel : forall w limit v,
  fst (download_loop cfg fuel w limit v) = Returned "OK" <->
  limit - downloaded v <= Z.of_nat (count_first counted w fuel).
Proof.
  induction fuel as [| fuel IH]; intros w limit v;
    destruct (Z.lt_ge_cases (downloaded v) limit) as [Hlt | Hge];
    try (rewrite download_loop_done by assumption; simpl; split;
         [intros _; lia | reflexivity]).
  - rewrite download_loop_out_of_fuel by assumption.
    unfold count_first. simpl. split; [discriminate | lia].
  - rewrite download_loop_step by assumption. simpl fst.
    rewrite IH, loop_body_downloaded, count_first_succ.
    destruct (counted (w O)); lia.
Qed.

Lemma uploads_full_pass logs :
  Forall (fun a => exists data,
            at_events a = full_pass cfg (filename_at (at_seconds a)) data)
         logs ->
  List.length (uploads logs) = List.length logs.
Proof.
  unfold uploads, calls.
  induction 1 as [| a logs [data Ha] _ IH]; simpl; [reflexivity |].
  rewrite filter_app, length_app, IH, Ha. reflexivity.
Qed.

(** When every attempt is counted, the loop makes as many passes as files
    are still wanted, each of them a full pass. *)
Lemma download_loop_all_counted fuel : forall w limit v,
  (forall i, counted (w i) = true) ->
  limit - downloaded v <= Z.of_nat fuel ->
  fst (download_loop cfg fuel w limit v) = Returned "OK"
  /\ List.length (snd (download_loop cfg fuel w limit v)) =
     Z.to_nat (limit - downloaded v)
  /\ Forall (fun a => exists data,
               at_events a = full_pass cfg (filename_at (at_seconds a)) data)
            (snd (download_loop cfg fuel w limit v)).
Proof.
  induction fuel as [| fuel IH]; intros w limit v Hall Hfuel;
    destruct (Z.lt_ge_cases (downloaded v) limit) as [Hlt | Hge];
    try (rewrite download_loop_done by assumption; simpl;
         repeat split; [lia | constructor]).
  - simpl in Hfuel. lia.
  - rewrite download_loop_step by assumption. simpl fst. simpl snd.
    pose proof (loop_body_downloaded cfg (w O) v) as Hd.
    rewrite (Hall O) in Hd.
    destruct (IH (later w) limit (fst (loop_body cfg (w O) v))) as
      (Hres & Hlen & Hfull).
    + intros i. apply Hall.
    + lia.
    + split; [exact Hres | split].
      * simpl. rewrite Hlen, Hd. lia.
      * constructor; [| exact Hfull].
        rewrite loop_body_at_seconds. apply loop_body_counted, Hall.
Qed.

End Loop.

(** ** [download_data] *)

(** C1: with [file_limit = n > 0], every fetch answering 200 and every
    upload going through (the temporary file written, uploaded and unlinked
    without an exception), a run that is followed for at least [n] passes
    returns ["OK"] after exactly [n] passes; each pass fetches, writes the
    temporary file, uploads it under the prefix and unlinks it, so there are
    exactly [n] upload calls. *)
Theorem download_data_all_ok cfg w n fuel :
  0 < n ->
  (forall i, returns_200 (w i) = true) ->
  (forall i, upload_succeeds (w i) = true) ->
  n <= Z.of_nat fuel ->
  fst (download_data cfg fuel w n) = Returned "OK"
  /\ Z.of_nat (List.length (uploads (snd (download_data cfg fuel w n)))) = n
  /\ Z.of_nat (List.length (snd (download_data cfg fuel w n))) = n
  /\ Forall (fun a => exists data,
               at_events a = full_pass cfg (filename_at (at_seconds a)) data)
            (snd (download_data cfg fuel w n)).
Proof.
  intros Hn H200 Hup Hfuel. unfold download_data.
  assert (Hall : forall i, counted (w i) = true).
  { intros i. unfold counted. rewrite H200, Hup. reflexivity. }
  destruct (download_loop_all_counted cfg fuel w n
              {| downloaded := 0; seconds := 0 |} Hall) as (Hres & Hlen & Hfull).
  { simpl. lia. }
  simpl downloaded in Hlen.
  repeat split; try assumption.
  - rewrite (uploads_full_pass cfg) by assumption. rewrite Hlen. lia.
  - rewrite Hlen. lia.
Qed.

Lemma download_data_all_ok_witness :
  fst (download_data sample_cfg 3 always_200 3) = Returned "OK"
  /\ Z.of_nat (List.length
       (uploads (snd (download_data sample_cfg 3 always_200 3)))) = 3.
Proof.
  destruct (download_data_all_ok sample_cfg always_200 3 3) as (H1 & H2 & _);
    [lia | reflexivity | reflexivity | lia |].
  split; assumption.
Defined.

(** C3: for [file_limit = n > 0], the run returns if and only if some
    prefix of the attempts holds [n] attempts that answer 200 and whose
    upload goes through without an exception; when no attempt ever does, the
    loop is still going after any number of passes. *)
Theorem download_data_terminates_iff cfg w n :
  0 < n ->
  ((exists fuel, fst (download_data cfg fuel w n) = Returned "OK") <->
   (exists k, n <= Z.of_nat (count_first counted w k)))
  /\ ((forall i, counted (w i) = false) ->
      forall fuel, fst (download_data cfg fuel w n) = StillLooping).
Proof.
  intros Hn. unfold download_data. split.
  - split; intros [k Hk]; exists k.
    + apply download_loop_returns_iff in Hk. simpl in Hk. lia.
    + apply download_loop_returns_iff. simpl. lia.
  - intros Hnever fuel.
    destruct (download_loop_outcome cfg fuel w n
                {| downloaded := 0; seconds := 0 |}) as [Hok | Hloop];
      [| exact Hloop].
    apply download_loop_returns_iff in Hok. simpl in Hok.
    rewrite count_first_none in Hok by assumption. simpl in Hok. lia.
Qed.

Lemma download_data_terminates_iff_witness :
  (exists fuel, fst (download_data sample_cfg fuel mixed_world 2)
                = Returned "OK")
  /\ (forall fuel, fst (download_data sample_cfg fuel always_404 2)
                   = StillLooping).
Proof.
  split.
  - apply (download_data_terminates_iff sample_cfg mixed_world 2); [lia |].
    exists 4%nat. vm_compute. discriminate.
  - apply (download_data_terminates_iff sample_cfg always_404 2);
      [lia | intros i; reflexivity].
Defined.

(** The same when the local disk never fails: what counts is a 200 and an
    [upload_file] that does not raise. *)
Lemma download_data_returns_iff_reliable_disk cfg w n :
  (forall i, local_file_ok (w i) = true) ->
  (exists fuel, fst (download_data cfg fuel w n) = Returned "OK") <->
  (exists k, n <= Z.of_nat (count_first fetched_and_uploaded w k)).
Proof.
  intros Hlocal.
  assert (Hsame : forall i, counted (w i) = fetched_and_uploaded (w i)).
  { intros i. specialize (Hlocal i).
    unfold counted, upload_succeeds, fetched_and_uploaded, upload_ok,
      local_file_ok in *.
    apply andb_prop in Hlocal as [Hw Hu]. rewrite Hw, Hu.
    destruct (returns_200 (w i)), (no_raise (env_upload (w i)));
      reflexivity. }
  unfold download_data.
  split; intros [k Hk]; exists k.
  - apply download_loop_returns_iff in Hk. simpl in Hk.
    rewrite <- (count_first_ext counted fetched_and_uploaded w k Hsame). lia.
  - apply download_loop_returns_iff. simpl.
    rewrite (count_first_ext counted fetched_and_uploaded w k Hsame). lia.
Qed.

(** An upload that succeeds but whose temporary file cannot be unlinked is
    not counted: the pass ends in the handler. *)
Lemma unlink_failure_not_counted :
  let w : world := fun _ =>
    {| env_get := inr {| status_code := 200; content := "x" |};
       env_write := None; env_upload := None;
       env_unlink := Some "[Errno 2] No such file or directory" |} in
  forall fuel, fst (download_data sample_cfg fuel w 1) = StillLooping.
Proof.
  intros w fuel. unfold download_data.
  destruct (download_loop_outcome sample_cfg fuel w 1
              {| downloaded := 0; seconds := 0 |}) as [Hok | Hloop];
    [| exact Hloop].
  apply download_loop_returns_iff in Hok. simpl in Hok.
  rewrite count_first_none in Hok by reflexivity. simpl in Hok. lia.
Qed.

(** C4: pass number [i] (from 0) runs at offset [5 * i], whatever the
    earlier passes met (a file, a status other than 200, an exception), and
    its one fetch is for [base_url] followed by the hours, minutes and
    seconds of the offset, each zero-padded to two digits, and
    ["Z.json.gz"]. *)
Theorem download_data_offsets cfg fuel w n i a :
  nth_error (snd (download_data cfg fuel w n)) i = Some a ->
  let offset := 5 * Z.of_nat i in
  at_seconds a = offset
  /\ filter is_get (at_events a) =
     [RequestsGet
        (base_url cfg
         ++ Py.format_0d 2 (offset / 3600)
         ++ Py.format_0d 2 ((offset mod 3600) / 60)
         ++ Py.format_0d 2 (offset mod 60)
         ++ "Z.json.gz") 20].
Proof.
  intros Hnth offset. unfold download_data in Hnth.
  apply download_loop_nth in Hnth. simpl seconds in Hnth.
  destruct Hnth as (Hsec & _ & Hget).
  assert (Ha : at_seconds a = offset) by (unfold offset; lia).
  split; [exact Ha |].
  rewrite Hget, Ha. reflexivity.
Qed.

Lemma download_data_offsets_witness :
  exists a,
    nth_error (snd (download_data sample_cfg 5 mixed_world 2)) 2 = Some a
    /\ at_seconds a = 10
    /\ filter is_get (at_events a) =
       [RequestsGet
          "https://samples.adsbexchange.com/readsb-hist/2023/11/01/000010Z.json.gz"
          20].
Proof.
  assert (H : nth_error (snd (download_data sample_cfg 5 mixed_world 2)) 2
              <> None) by (vm_compute; discriminate).
  destruct (nth_error (snd (download_data sample_cfg 5 mixed_world 2)) 2)
    as [a |] eqn:Ha; [| contradiction].
  exists a. split; [reflexivity |].
  exact (download_data_offsets sample_cfg 5 mixed_world 2 2 a Ha).
Defined.

(** C9: with [file_limit <= 0] the loop test fails at once: no pass, hence
    no fetch and no upload, and ["OK"] is returned. *)
Theorem download_data_nonpositive cfg fuel w n :
  n <= 0 -> download_data cfg fuel w n = (Returned "OK", []).
Proof.
  intros Hn. unfold download_data. apply download_loop_done. simpl. lia.
Qed.

Lemma download_data_nonpositive_witness :
  download_data sample_cfg 0 always_404 (-3) = (Returned "OK", []).
Proof.
  apply (download_data_nonpositive sample_cfg 0 always_404 (-3)). lia.
Defined.

(** ** [prepare_data] *)










Lemma append_empty_r s : s ++ "" = s.
Proof. induction s as [| c s IH]; simpl; [| rewrite IH]; reflexivity. Qed.





(** * Further properties of the s4 endpoints *)

(** ** File names *)

Lemma two_digits_format n rest :
  0 <= n < 100 -> two_digits (Py.format_0d 2 n ++ rest) = Some (n, rest).
Proof.
  intros Hn.
  assert (Hk : exists k, (k < 100)%nat /\ n = Z.of_nat k)
    by (exists (Z.to_nat n); lia).
  destruct Hk as (k & Hk & ->). clear Hn.
  do 100 (destruct k as [| k]; [reflexivity |]). lia.
Qed.

(** The file name of an offset below 100 hours reads back as the offset. *)
Lemma offset_of_filename_at seconds :
  0 <= seconds < 360000 ->
  offset_of_filename (filename_at seconds) = Some seconds.
Proof.
  intros H. unfold offset_of_filename, filename_at.
  assert (Hh : 0 <= seconds / 3600 < 100).
  { split; [apply Z.div_pos; lia | apply Z.div_lt_upper_bound; lia]. }
  assert (Hm : 0 <= (seconds mod 3600) / 60 < 100).
  { pose proof (Z.mod_pos_bound seconds 3600 ltac:(lia)).
    split; [apply Z.div_pos; lia | apply Z.div_lt_upper_bound; lia]. }
  assert (Hs : 0 <= seconds mod 60 < 100)
    by (pose proof (Z.mod_pos_bound seconds 60 ltac:(lia)); lia).
  rewrite (two_digits_format _ _ Hh), (two_digits_format _ _ Hm),
    (two_digits_format _ _ Hs).
  change (String.eqb "Z.json.gz" "Z.json.gz") with true. cbv iota. f_equal.
  pose proof (Z.div_mod seconds 3600 ltac:(lia)).
  pose proof (Z.div_mod (seconds mod 3600) 60 ltac:(lia)).
  assert (Hmm : (seconds mod 3600) mod 60 = seconds mod 60)
    by (apply Z.mod_mod_divide; exists 60; lia).
  lia.
Qed.

Lemma append_inj_l a b c : a ++ b = a ++ c -> b = c.
Proof.
  induction a as [| x a IH]; simpl; intros H; [exact H |].
  injection H as H. apply IH, H.
Qed.

(** Below 100 hours, two offsets that are fetched from the same URL are the
    same offset: the scan never asks for a file twice. *)
Theorem file_url_injective cfg s1 s2 :
  0 <= s1 < 360000 ->
  0 <= s2 < 360000 ->
  base_url cfg ++ filename_at s1 = base_url cfg ++ filename_at s2 ->
  s1 = s2.
Proof.
  intros H1 H2 Heq. apply append_inj_l in Heq.
  apply offset_of_filename_at in H1, H2.
  rewrite Heq in H1. congruence.
Qed.

Lemma file_url_injective_witness :
  base_url sample_cfg ++ filename_at 3595
  <> base_url sample_cfg ++ filename_at 3600.
Proof.
  intros H.
  assert (Heq : 3595 = 3600)
    by (apply (file_url_injective sample_cfg 3595 3600); [lia | lia | exact H]).
  discriminate Heq.
Defined.

(** ** Passes of a run *)

(** Pass [i] of a run is the loop body applied to the answers of attempt [i],
    with [seconds] at [5 * i] more than at the start. *)
Lemma download_loop_nth_body cfg fuel : forall w limit v i a,
  nth_error (snd (download_loop cfg fuel w limit v)) i = Some a ->
  exists v', seconds v' = seconds v + 5 * Z.of_nat i
             /\ a = snd (loop_body cfg (w i) v').
Proof.
  induction fuel as [| fuel IH]; intros w limit v i a Hnth;
    destruct (Z.lt_ge_cases (downloaded v) limit) as [Hlt | Hge];
    try (rewrite download_loop_done in Hnth by assumption;
         destruct i; discriminate).
  - rewrite download_loop_out_of_fuel in Hnth by assumption.
    destruct i; discriminate.
  - rewrite download_loop_step in Hnth by assumption. simpl snd in Hnth.
    destruct i as [| i]; simpl in Hnth.
    + injection Hnth as <-. exists v. split; [lia | reflexivity].
    + apply IH in Hnth as (v' & Hsec & ->).
      rewrite loop_body_seconds in Hsec. exists v'. split; [lia | reflexivity].
Qed.

Lemma data_pass cfg fuel w n i a :
  nth_error (snd (download_data cfg fuel w n)) i = Some a ->
  exists v', seconds v' = 5 * Z.of_nat i /\ a = snd (loop_body cfg (w i) v').
Proof.
  intros H. apply download_loop_nth_body in H as (v' & Hsec & ->).
  exists v'. split; [exact Hsec | reflexivity].
Qed.

(** Whatever is uploaded is the file fetched in the same pass with a 200
    answer and written to disk first, and it goes to the configured bucket
    under ["raw/day=20231101/"] followed by the same file name. *)
Theorem upload_is_of_fetched_file cfg fuel w n i a f b k :
  nth_error (snd (download_data cfg fuel w n)) i = Some a ->
  In (UploadFile f b k) (at_events a) ->
  f = filename_at (5 * Z.of_nat i)
  /\ b = s3_bucket cfg
  /\ k = "raw/day=20231101/" ++ f
  /\ returns_200 (w i) = true
  /\ exists data,
       env_get (w i) = inr {| status_code := 200; content := data |}
       /\ In (OpenWrite f data) (at_events a).
Proof.
  intros Hnth Hin. apply data_pass in Hnth as (v' & Hsec & ->).
  revert Hin. rewrite <- Hsec.
  unfold loop_body, try_body, call_val, call, say, bind, ret, returns_200.
  destruct (env_get (w i)) as [e | [code data]]; cbn.
  - intros [H | [H | [H | []]]]; discriminate.
  - destruct (Z.eqb_spec code 200) as [-> | Hne]; cbn.
    + destruct (env_write (w i)), (env_upload (w i)), (env_unlink (w i));
        cbn; intros Hin;
        repeat match type of Hin with
               | _ \/ _ => destruct Hin as [Hin | Hin]; try discriminate
               | False => destruct Hin
               end;
        injection Hin as <- <- <-;
        (repeat split; try reflexivity); exists data; split;
        try reflexivity; auto.
    + intros [H | [H | [H | []]]]; discriminate.
Qed.

Lemma upload_is_of_fetched_file_witness :
  exists a,
    nth_error (snd (download_data sample_cfg 5 mixed_world 2)) 3 = Some a
    /\ In (UploadFile "000015Z.json.gz" "bdi-test"
             "raw/day=20231101/000015Z.json.gz") (at_events a)
    /\ returns_200 (mixed_world 3%nat) = true.
Proof.
  assert (H : exists a,
             nth_error (snd (download_data sample_cfg 5 mixed_world 2)) 3
             = Some a
             /\ In (UploadFile "000015Z.json.gz" "bdi-test"
                      "raw/day=20231101/000015Z.json.gz") (at_events a)).
  { eexists. split; [reflexivity |]. simpl. auto 10. }
  destruct H as (a & Hnth & Hin). exists a.
  split; [exact Hnth | split; [exact Hin |]].
  apply (upload_is_of_fetched_file sample_cfg 5 mixed_world 2 3%nat a
           _ _ _ Hnth Hin).
Defined.

(** A pass whose fetch raises or answers anything but 200 writes no file,
    uploads nothing and unlinks nothing. *)
Theorem failed_fetch_has_no_effect cfg fuel w n i a :
  nth_error (snd (download_data cfg fuel w n)) i = Some a ->
  returns_200 (w i) = false ->
  filter is_effect (at_events a) = [].
Proof.
  intros Hnth H200. apply data_pass in Hnth as (v' & _ & ->).
  revert H200.
  unfold loop_body, try_body, call_val, call, say, bind, ret, returns_200.
  destruct (env_get (w i)) as [e | r]; cbn; [reflexivity |].
  destruct (status_code r =? 200); cbn; [discriminate | reflexivity].
Qed.

Lemma failed_fetch_has_no_effect_witness :
  exists a,
    nth_error (snd (download_data sample_cfg 5 mixed_world 2)) 1 = Some a
    /\ filter is_effect (at_events a) = [].
Proof.
  assert (H : exists a,
             nth_error (snd (download_data sample_cfg 5 mixed_world 2)) 1
             = Some a) by (eexists; reflexivity).
  destruct H as (a & Hnth). exists a. split; [exact Hnth |].
  apply (failed_fetch_has_no_effect sample_cfg 5 mixed_world 2 1%nat a Hnth).
  reflexivity.
Defined.

(** When the file is fetched and written but [upload_file] raises, the pass
    ends in the handler: the error is printed and the temporary file is
    never unlinked. *)
Theorem failed_upload_leaves_file cfg fuel w n i a e :
  nth_error (snd (download_data cfg fuel w n)) i = Some a ->
  returns_200 (w i) = true ->
  env_write (w i) = None ->
  env_upload (w i) = Some e ->
  let f := filename_at (5 * Z.of_nat i) in
  exists data,
    at_events a =
    [Print ("Downloading: " ++ f);
     RequestsGet (base_url cfg ++ f) 20;
     OpenWrite f data;
     Print ("Uploading to S3: " ++ f);
     UploadFile f (s3_bucket cfg) (s3_prefix_path ++ f);
     Print ("Error: " ++ e)].
Proof.
  intros Hnth H200 Hw Hu f. apply data_pass in Hnth as (v' & Hsec & ->).
  unfold f. rewrite <- Hsec. revert H200.
  unfold loop_body, try_body, call_val, call, say, bind, ret, returns_200.
  rewrite Hw, Hu.
  destruct (env_get (w i)) as [e' | r]; cbn; [discriminate |].
  destruct (status_code r =? 200); cbn; [| discriminate].
  intros _. exists (content r). reflexivity.
Qed.

Lemma failed_upload_leaves_file_witness :
  exists a data,
    nth_error (snd (download_data sample_cfg 3 upload_denied 1)) 2 = Some a
    /\ filter is_effect (at_events a) =
       [OpenWrite "000010Z.json.gz" data;
        UploadFile "000010Z.json.gz" "bdi-test"
          "raw/day=20231101/000010Z.json.gz"].
Proof.
  assert (H : exists a,
             nth_error (snd (download_data sample_cfg 3 upload_denied 1)) 2
             = Some a) by (eexists; reflexivity).
  destruct H as (a & Hnth).
  destruct (failed_upload_leaves_file sample_cfg 3 upload_denied 1 2%nat a
              "AccessDenied" Hnth) as (data & Hev);
    [reflexivity | reflexivity | reflexivity |].
  exists a, data. split; [exact Hnth |].
  rewrite Hev. reflexivity.
Defined.

(** ** How many passes a run takes *)

Lemma loop_body_uploads cfg a v :
  ((if counted a then 1 else 0)
   <= List.length (filter is_upload (at_events (snd (loop_body cfg a v))))
   <= 1)%nat.
Proof.
  unfold loop_body, try_body, call_val, call, say, bind, ret.
  unfold counted, upload_succeeds, returns_200, no_raise.
  destruct (env_get a) as [e | r]; cbn; [lia |].
  destruct (status_code r =? 200); cbn; [| lia].
  destruct (env_write a), (env_upload a), (env_unlink a); cbn; lia.
Qed.

(** Between the counted attempts and the passes: the upload calls. *)
Lemma download_loop_uploads cfg fuel : forall w limit v,
  let logs := snd (download_loop cfg fuel w limit v) in
  (count_first counted w (List.length logs) <= List.length (uploads logs)
   <= List.length logs)%nat.
Proof.
  induction fuel as [| fuel IH]; intros w limit v;
    destruct (Z.lt_ge_cases (downloaded v) limit) as [Hlt | Hge];
    try (rewrite download_loop_done by assumption; simpl;
         unfold count_first; simpl; lia).
  - rewrite download_loop_out_of_fuel by assumption.
    unfold count_first. simpl. lia.
  - rewrite download_loop_step by assumption. cbv zeta. simpl snd.
    specialize (IH (later w) limit (fst (loop_body cfg (w O) v))).
    cbv zeta in IH.
    pose proof (loop_body_uploads cfg (w O) v) as Hone.
    simpl List.length. rewrite count_first_succ.
    unfold uploads, calls in *. simpl flat_map.
    rewrite filter_app, length_app. lia.
Qed.

Lemma download_loop_count cfg fuel : forall w limit v,
  downloaded v <= limit ->
  fst (download_loop cfg fuel w limit v) = Returned "OK" ->
  Z.of_nat (count_first counted w
              (List.length (snd (download_loop cfg fuel w limit v)))) =
  limit - downloaded v.
Proof.
  induction fuel as [| fuel IH]; intros w limit v Hle Hret;
    destruct (Z.lt_ge_cases (downloaded v) limit) as [Hlt | Hge];
    try (rewrite download_loop_done by assumption; unfold count_first;
         simpl; lia).
  - rewrite download_loop_out_of_fuel in Hret by assumption. discriminate.
  - rewrite download_loop_step in * by assumption.
    simpl fst in Hret. simpl snd. simpl List.length.
    rewrite count_first_succ.
    pose proof (loop_body_downloaded cfg (w O) v) as Hd.
    rewrite Nat2Z.inj_add, IH; [| destruct (counted (w O)); lia | exact Hret].
    rewrite Hd. destruct (counted (w O)); lia.
Qed.

Lemma download_loop_last_counted cfg fuel : forall w limit v,
  downloaded v < limit ->
  fst (download_loop cfg fuel w limit v) = Returned "OK" ->
  exists j,
    List.length (snd (download_loop cfg fuel w limit v)) = S j
    /\ counted (w j) = true.
Proof.
  induction fuel as [| fuel IH]; intros w limit v Hlt Hret.
  - rewrite download_loop_out_of_fuel in Hret by assumption. discriminate.
  - rewrite download_loop_step in * by assumption.
    simpl fst in Hret. simpl snd. simpl List.length.
    pose proof (loop_body_downloaded cfg (w O) v) as Hd.
    destruct (Z.lt_ge_cases (downloaded (fst (loop_body cfg (w O) v))) limit)
      as [Hlt' | Hge'].
    + destruct (IH _ _ _ Hlt' Hret) as (j & Hlen & Hj).
      exists (S j). split; [rewrite Hlen; reflexivity | exact Hj].
    + rewrite download_loop_done by assumption. exists O.
      split; [reflexivity |].
      destruct (counted (w O)); [reflexivity | lia].
Qed.

(** A run that returns for [file_limit = n > 0] stops right after its
    [n]-th counted attempt: among the passes it made exactly [n] are
    counted, the last one is, and it made at least [n] upload calls and at
    most one per pass. *)
Theorem download_data_stops_at_nth_success cfg fuel w n :
  0 < n ->
  fst (download_data cfg fuel w n) = Returned "OK" ->
  let logs := snd (download_data cfg fuel w n) in
  Z.of_nat (count_first counted w (List.length logs)) = n
  /\ (exists j, List.length logs = S j /\ counted (w j) = true)
  /\ n <= Z.of_nat (List.length (uploads logs))
     <= Z.of_nat (List.length logs).
Proof.
  intros Hn Hret logs. unfold logs, download_data in *.
  pose proof (download_loop_count cfg fuel w n
                {| downloaded := 0; seconds := 0 |}) as Hcount.
  simpl in Hcount. specialize (Hcount ltac:(lia) Hret).
  pose proof (download_loop_uploads cfg fuel w n
                {| downloaded := 0; seconds := 0 |}) as Hup.
  cbv zeta in Hup.
  split; [lia | split; [| lia]].
  apply download_loop_last_counted; [simpl; lia | exact Hret].
Qed.

Lemma download_data_stops_at_nth_success_witness :
  List.length (snd (download_data sample_cfg 9 mixed_world 2)) = 4%nat
  /\ Z.of_nat (count_first counted mixed_world 4) = 2.
Proof.
  destruct (download_data_stops_at_nth_success sample_cfg 9 mixed_world 2)
    as (Hcount & _); [lia | reflexivity |].
  split; [reflexivity | exact Hcount].
Defined.

(** ** Where [prepare_data] writes *)







End S4Facts.

(** * Properties of the s5 endpoints *)

Module S5Facts.
Import S5.

(** ** [ORDER BY] *)

Section OrderBy.
Context {R : Type} (key : R -> Z).

Lemma insert_by_perm x l : Permutation (insert_by key x l) (x :: l).
Proof.
  induction l as [| y l IH]; simpl; [reflexivity |].
  destruct (key x <=? key y); [reflexivity |].
  rewrite IH. apply perm_swap.
Qed.

Lemma order_by_perm l : Permutation (order_by key l) l.
Proof.
  induction l as [| x l IH]; simpl; [constructor |].
  rewrite insert_by_perm. constructor. exact IH.
Qed.

Lemma insert_by_ascending x l :
  ascending key l -> ascending key (insert_by key x l).
Proof.
  unfold ascending.
  induction 1 as [| y l Hl IH Hy]; simpl.
  - repeat constructor.
  - destruct (Z.leb_spec (key x) (key y)) as [Hle | Hgt].
    + constructor; [constructor; assumption |].
      constructor; [exact Hle |].
      rewrite Forall_forall in *. intros z Hz. specialize (Hy z Hz). lia.
    + constructor; [exact IH |].
      rewrite Forall_forall in *. intros z Hz.
      apply (Permutation_in _ (insert_by_perm x l)) in Hz.
      destruct Hz as [<- | Hz]; [lia | apply Hy, Hz].
Qed.

Lemma order_by_ascending l : ascending key (order_by key l).
Proof.
  induction l as [| x l IH]; simpl; [constructor |].
  apply insert_by_ascending, IH.
Qed.

Lemma order_by_length l : List.length (order_by key l) = List.length l.
Proof. apply Permutation_length, order_by_perm. Qed.

Lemma order_by_nil l : order_by key l = [] <-> l = [].
Proof.
  split; intros H.
  - apply length_zero_iff_nil. rewrite <- order_by_length, H. reflexivity.
  - subst. reflexivity.
Qed.

End OrderBy.

(** Sorting on a key of the first component, then projecting, is sorting
    the projections. *)
Lemma insert_by_map {A B} (f : A -> B) (key : B -> Z) x l :
  map f (insert_by (fun a => key (f a)) x l) = insert_by key (f x) (map f l).
Proof.
  induction l as [| y l IH]; simpl; [reflexivity |].
  destruct (key (f x) <=? key (f y)); simpl; [reflexivity |].
  rewrite IH. reflexivity.
Qed.

Lemma order_by_map {A B} (f : A -> B) (key : B -> Z) l :
  map f (order_by (fun a => key (f a)) l) = order_by key (map f l).
Proof.
  induction l as [| x l IH]; simpl; [reflexivity |].
  rewrite insert_by_map, IH. reflexivity.
Qed.

Lemma ascending_map {A B} (f : A -> B) (key : B -> Z) l :
  ascending (fun a => key (f a)) l -> ascending key (map f l).
Proof.
  unfold ascending. induction 1 as [| x l Hl IH Hx]; simpl; constructor.
  - exact IH.
  - rewrite Forall_forall in *. intros y Hy.
    apply in_map_iff in Hy as (a & <- & Ha). apply Hx, Ha.
Qed.

Lemma ascending_firstn {R} (key : R -> Z) n l :
  ascending key l -> ascending key (firstn n l).
Proof.
  unfold ascending. intros H. revert n.
  induction H as [| x l Hl IH Hx]; intros [| n]; simpl; try constructor.
  - apply IH.
  - rewrite Forall_forall in *. intros y Hy.
    apply Hx. eapply (In_nth_error) in Hy as [i Hi].
    apply nth_error_In with i. rewrite nth_error_firstn in Hi.
    destruct (i <? n)%nat; [exact Hi | discriminate].
Qed.

Lemma ascending_skipn {R} (key : R -> Z) n l :
  ascending key l -> ascending key (skipn n l).
Proof.
  unfold ascending. intros H. revert n.
  induction H as [| x l Hl IH Hx]; intros [| n]; simpl;
    try constructor; try assumption.
  apply IH.
Qed.

(** ** Joins *)

Lemma in_left_join {A B} (on : A -> B -> bool) l r a ob :
  In (a, ob) (left_join on l r) <->
  In a l /\ match ob with
            | Some b => In b r /\ on a b = true
            | None => forall b, In b r -> on a b = false
            end.
Proof.
  unfold left_join. rewrite in_flat_map. split.
  - intros (a' & Ha' & Hin).
    destruct (filter (on a') r) as [| b0 bs] eqn:Hf.
    + destruct Hin as [[= <- <-] | []]. split; [exact Ha' |].
      intros b Hb. destruct (on a' b) eqn:Hon; [| reflexivity].
      assert (Hbf : In b (filter (on a') r)) by (apply filter_In; auto).
      rewrite Hf in Hbf. destruct Hbf.
    + apply in_map_iff in Hin as (b & [= <- <-] & Hb).
      rewrite <- Hf in Hb. apply filter_In in Hb. auto.
  - intros (Ha & Hob). exists a. split; [exact Ha |].
    destruct ob as [b |].
    + assert (Hb : In b (filter (on a) r)) by (apply filter_In; exact Hob).
      destruct (filter (on a) r) as [| b0 bs]; [destruct Hb |].
      apply in_map_iff. eauto.
    + destruct (filter (on a) r) as [| b0 bs] eqn:Hf; [left; reflexivity |].
      assert (Hb0 : In b0 (filter (on a) r)) by (rewrite Hf; left; reflexivity).
      apply filter_In in Hb0 as [Hin Hon].
      rewrite (Hob b0 Hin) in Hon. discriminate.
Qed.

(** Every left row survives a left join. *)
Lemma left_join_keeps {A B} (on : A -> B -> bool) l r a :
  In a l -> exists ob, In (a, ob) (left_join on l r).
Proof.
  intros Ha. destruct (filter (on a) r) as [| b bs] eqn:Hf.
  - exists None. apply in_left_join. split; [exact Ha |].
    intros b Hb. destruct (on a b) eqn:Hon; [| reflexivity].
    assert (Hbf : In b (filter (on a) r)) by (apply filter_In; auto).
    rewrite Hf in Hbf. destruct Hbf.
  - exists (Some b). apply in_left_join. split; [exact Ha |].
    assert (Hb : In b (filter (on a) r)) by (rewrite Hf; left; reflexivity).
    apply filter_In in Hb. exact Hb.
Qed.

(** ** [list_department_employees] *)

(** C7: when no employee has the department id, the handler returns the
    empty dict, not a list; otherwise it returns a list holding exactly the
    employees of the department, in ascending order of id. *)
Theorem list_department_employees_result db dept_id :
  (employees_of db dept_id = [] ->
   list_department_employees db dept_id = PyDict [])
  /\ (employees_of db dept_id <> [] ->
      exists rows,
        list_department_employees db dept_id = PyList rows
        /\ rows <> []
        /\ Permutation rows
             (map department_employee (employees_of db dept_id))
        /\ ascending de_id rows).
Proof.
  unfold list_department_employees, employees_of.
  set (matching := filter (fun e => in_department e dept_id) (employee db)).
  split.
  - intros ->. reflexivity.
  - intros Hne.
    exists (map department_employee (order_by e_id matching)).
    assert (Hsorted : order_by e_id matching <> [])
      by (rewrite order_by_nil; exact Hne).
    repeat split.
    + destruct (order_by e_id matching); [contradiction | reflexivity].
    + destruct (order_by e_id matching); [contradiction | discriminate].
    + apply Permutation_map, order_by_perm.
    + apply (ascending_map department_employee de_id).
      apply (order_by_ascending e_id).
Qed.

Lemma list_department_employees_result_witness :
  list_department_employees sample_db 2 = PyDict []
  /\ exists rows, list_department_employees sample_db 1 = PyList rows
                  /\ map de_id rows = [1; 2].
Proof.
  destruct (list_department_employees_result sample_db 2) as [Hnone _].
  destruct (list_department_employees_result sample_db 1) as [_ Hsome].
  split; [apply Hnone; reflexivity |].
  destruct Hsome as (rows & Hrows & _); [discriminate |].
  exists rows. split; [exact Hrows |].
  assert (Hval : PyList rows =
                 PyList (map department_employee
                           [emp 1 "al" 100 (Some 1); emp 2 "bo" 200 (Some 1)]))
    by (rewrite <- Hrows; reflexivity).
  injection Hval as ->. reflexivity.
Defined.

(** ** [department_stats] *)

Lemma distinct_head {K} (eqb : K -> K -> bool) k ks :
  exists rest, distinct eqb (k :: ks) = k :: rest.
Proof. simpl. eauto. Qed.

(** The row returned is the one of the group of the first selected row. *)
Lemma group_by_first {K R} (eqb : K -> K -> bool) (key : R -> K) r rest :
  exists groups,
    group_by eqb key (r :: rest) =
    (key r, filter (fun r' => eqb (key r') (key r)) (r :: rest)) :: groups.
Proof. unfold group_by. simpl map. simpl distinct. simpl map. eauto. Qed.

Lemma non_null_none {R V} (col : R -> option V) rows :
  Forall (fun r => col r = None) rows -> non_null col rows = [].
Proof.
  induction 1 as [| r rows Hr _ IH]; simpl; [reflexivity |].
  rewrite Hr, IH. reflexivity.
Qed.

(** The department of every joined row is a row of [department]. *)
Lemma stats_join_department db r :
  In r (stats_join db) -> In (fst (fst r)) (department db).
Proof.
  destruct r as [[d oe] oep]. unfold stats_join. intros H.
  apply in_left_join in H as [H _].
  apply in_left_join in H as [H _]. exact H.
Qed.

(** C10: when no department row has the id, the query selects nothing and
    [fetchone] gives [None]: there is no record at all. *)
Theorem department_stats_unknown db dept_id :
  (forall d, In d (department db) -> d_id d <> dept_id) ->
  department_stats db dept_id = None.
Proof.
  intros Hnone. unfold department_stats. cbv zeta.
  match goal with
  | |- context [filter ?f (stats_join db)] =>
      destruct (filter f (stats_join db)) as [| r rest] eqn:Hf
  end; [reflexivity |].
  exfalso.
  assert (Hr : In r (r :: rest)) by (left; reflexivity).
  rewrite <- Hf in Hr. apply filter_In in Hr as [Hin Hid].
  apply stats_join_department in Hin. apply Z.eqb_eq in Hid.
  exact (Hnone _ Hin Hid).
Qed.

Lemma department_stats_unknown_witness : department_stats sample_db 3 = None.
Proof.
  apply (department_stats_unknown sample_db 3).
  intros d [<- | [<- | []]]; discriminate.
Defined.

(** A department without employees gets one record, with a count of 0, a
    NULL average and no project. *)
Lemma department_stats_no_employees db dept_id :
  (exists d, In d (department db) /\ d_id d = dept_id) ->
  employees_of db dept_id = [] ->
  exists st,
    department_stats db dept_id = Some st
    /\ employee_count st = 0 /\ avg_salary st = None /\ project_count st = 0.
Proof.
  intros (d & Hd & Hid) Hnone. unfold department_stats. cbv zeta.
  match goal with
  | |- context [filter ?f (stats_join db)] =>
      set (rows := filter f (stats_join db))
  end.
  assert (Hnull : Forall (fun r : stats_row =>
                            snd (fst r) = None /\ snd r = None) rows).
  { apply Forall_forall. intros [[d' oe] oep] Hr.
    apply filter_In in Hr as [Hin Hd']. simpl in Hd'.
    apply Z.eqb_eq in Hd'. unfold stats_join in Hin.
    apply in_left_join in Hin as [Hin Hoep].
    apply in_left_join in Hin as [_ Hoe]. simpl.
    assert (Hoe' : oe = None).
    { destruct oe as [e |]; [| reflexivity]. destruct Hoe as [He Hon].
      rewrite Hd' in Hon.
      assert (In e (employees_of db dept_id))
        by (apply filter_In; split; assumption).
      rewrite Hnone in H. destruct H. }
    subst oe. split; [reflexivity |].
    destruct oep as [ep |]; [| reflexivity].
    destruct Hoep as [_ Hon]. discriminate. }
  assert (Hsome : exists r rest, rows = r :: rest).
  { destruct (left_join_keeps (fun d e => in_department e (d_id d))
                (department db) (employee db) d Hd) as [oe Hoe].
    destruct (left_join_keeps
                (fun (de : Department * option Employee) ep =>
                   match snd de with
                   | Some e => ep_employee_id ep =? e_id e
                   | None => false
                   end)
                _ (employee_project db) (d, oe) Hoe) as [oep Hoep].
    assert (Hin : In (d, oe, oep) rows).
    { apply filter_In. split; [exact Hoep |]. simpl. apply Z.eqb_eq, Hid. }
    destruct rows as [| r rest]; [destruct Hin | eauto]. }
  destruct Hsome as (r & rest & Hrows). rewrite Hrows in *.
  destruct (group_by_first key_eqb stats_key r rest) as [groups ->].
  unfold fetchone. cbn [map hd_error]. eexists. split; [reflexivity |].
  match goal with
  | |- context [filter ?f (r :: rest)] => set (grp := filter f (r :: rest))
  end.
  assert (Hgrp : Forall (fun r : stats_row =>
                           snd (fst r) = None /\ snd r = None) grp).
  { apply Forall_forall. intros x Hx. apply filter_In in Hx as [Hx _].
    rewrite Forall_forall in Hnull. apply Hnull, Hx. }
  simpl.
  rewrite !non_null_none; [repeat split | | |];
    (eapply Forall_impl; [| exact Hgrp]); intros x [Hx1 Hx2];
    simpl; rewrite ?Hx1, ?Hx2; reflexivity.
Qed.

Lemma department_stats_no_employees_witness :
  exists st,
    department_stats sample_db 2 = Some st
    /\ employee_count st = 0 /\ avg_salary st = None /\ project_count st = 0.
Proof.
  apply (department_stats_no_employees sample_db 2); [| reflexivity].
  exists dept_ops. split; [right; left; reflexivity | reflexivity].
Defined.

(** C2 on a department where one employee works on two projects: the
    tables satisfy the foreign keys, the department has two employees with
    a mean salary of 150, and the query reports 3 employees and a mean of
    400/3, one join row per assignment. *)
Theorem department_stats_counts_join_rows :
  fk_ok sample_db = true
  /\ headcount sample_db 1 = 2
  /\ mean_salary sample_db 1 = Some (150 # 1)
  /\ projects_of sample_db 1 = 2
  /\ department_stats sample_db 1 =
     Some {| st_department_name := "Engineering"; employee_count := 3;
             avg_salary := Some (400 # 3); project_count := 2 |}.
Proof. repeat split. Qed.

(** ** [list_employees] *)

Lemma filter_by_key_unique (l : list Department) k :
  NoDup (map d_id l) ->
  filter (fun d => k =? d_id d) l = []
  \/ exists d, filter (fun d => k =? d_id d) l = [d].
Proof.
  induction l as [| d l IH]; simpl; intros Hnd; [auto |].
  apply NoDup_cons_iff in Hnd as [Hnotin Hnd].
  destruct (Z.eqb_spec k (d_id d)) as [-> | Hne]; [| auto].
  right. exists d. f_equal.
  destruct (filter (fun d0 => d_id d =? d_id d0) l) as [| d' l'] eqn:Hf;
    [reflexivity |].
  assert (Hd' : In d' (filter (fun d0 => d_id d =? d_id d0) l))
    by (rewrite Hf; left; reflexivity).
  apply filter_In in Hd' as [Hin Heq]. apply Z.eqb_eq in Heq.
  destruct Hnotin. rewrite Heq. apply in_map, Hin.
Qed.

Lemma existsb_filter (l : list Department) k :
  existsb (fun d => d_id d =? k) l =
  match filter (fun d => k =? d_id d) l with [] => false | _ => true end.
Proof.
  induction l as [| d l IH]; simpl; [reflexivity |].
  rewrite (Z.eqb_sym (d_id d) k).
  destruct (k =? d_id d); [reflexivity | exact IH].
Qed.

(** With a unique department id, the inner join keeps each employee that
    has an existing department once, and drops the others. *)
Lemma inner_join_employees db :
  department_key db ->
  map fst (inner_join (fun e d => in_department e (d_id d))
                      (employee db) (department db)) =
  filter (has_existing_department db) (employee db).
Proof.
  intros Hkey. unfold inner_join, department_key in *.
  induction (employee db) as [| e es IH]; simpl; [reflexivity |].
  rewrite map_app, IH, map_map. simpl.
  unfold has_existing_department, in_department, has_department.
  destruct (e_department_id e) as [k |]; simpl.
  - rewrite existsb_filter.
    destruct (filter_by_key_unique (department db) k Hkey) as [-> | [d ->]];
      reflexivity.
  - assert (Hnone : forall l : list Department,
               filter (fun _ : Department => false) l = []).
    { intros l. induction l; simpl; auto. }
    rewrite Hnone. reflexivity.
Qed.

(** [LIMIT]/[OFFSET] inside the [bigint] range and not negative. *)
Lemma limit_offset_in_range {R} n m (rows : list R) :
  0 <= n <= bigint_max -> 0 <= m <= bigint_max ->
  limit_offset n m rows = inr (firstn (Z.to_nat n) (skipn (Z.to_nat m) rows)).
Proof.
  intros Hn Hm. unfold limit_offset, in_bigint, bigint_min, bigint_max in *.
  destruct (Z.leb_spec (-9223372036854775808) n); [| lia].
  destruct (Z.leb_spec n 9223372036854775807); [| lia].
  destruct (Z.leb_spec (-9223372036854775808) m); [| lia].
  destruct (Z.leb_spec m 9223372036854775807); [| lia].
  cbn [andb negb].
  destruct (Z.ltb_spec m 0); [lia |].
  destruct (Z.ltb_spec n 0); [lia |]. reflexivity.
Qed.

Lemma limit_offset_too_far {R} n m (rows : list R) :
  bigint_max < m -> limit_offset n m rows = inl "bigint out of range".
Proof.
  intros Hm. unfold limit_offset, in_bigint.
  destruct (Z.leb_spec m bigint_max); [lia |].
  rewrite andb_false_r, andb_false_r. reflexivity.
Qed.

(** Whatever is returned is the slice. *)
Lemma limit_offset_inr {R} n m (rows l : list R) :
  limit_offset n m rows = inr l ->
  l = firstn (Z.to_nat n) (skipn (Z.to_nat m) rows).
Proof.
  unfold limit_offset.
  destruct (negb (in_bigint n && in_bigint m)); [discriminate |].
  destruct (m <? 0); [discriminate |].
  destruct (n <? 0); [discriminate |].
  intros [= <-]. reflexivity.
Qed.

(** C6, amended: for [page >= 1] and [1 <= per_page <= 100] with the offset
    [(page-1)*per_page] inside the server's [bigint] range, [list_employees]
    returns the rows of the join, taken in ascending order of employee id,
    that come after the first [(page-1)*per_page] ones, and at most
    [per_page] of them; the rows of the join are the employees with an
    existing department; a page that starts past the last row is the empty
    list.  With an offset above the range the server refuses the statement
    and the handler raises. *)
Theorem list_employees_page db page per_page :
  1 <= page ->
  1 <= per_page <= 100 ->
  ((page - 1) * per_page <= bigint_max ->
  let all := map employee_listing (employees_joined db) in
  let offset := (page - 1) * per_page in
  exists rows,
    list_employees db page per_page = inr rows
    /\ rows = firstn (Z.to_nat per_page) (skipn (Z.to_nat offset) all)
    /\ Z.of_nat (List.length rows) <= per_page
    /\ ascending id rows
    /\ ascending id all
    /\ (department_key db ->
        map id all =
        map e_id (order_by e_id
                    (filter (has_existing_department db) (employee db))))
    /\ (Z.of_nat (List.length all) <= offset -> rows = []))
  /\ (bigint_max < (page - 1) * per_page ->
      list_employees db page per_page = inl "bigint out of range").
Proof.
  intros Hpage Hper. split.
  2:{ intros Hfar. unfold list_employees.
      rewrite limit_offset_too_far by exact Hfar. reflexivity. }
  intros Hbound all offset.
  assert (Hoff : 0 <= offset) by (unfold offset; nia).
  assert (Hall : ascending id all).
  { apply (ascending_map employee_listing id).
    apply (order_by_ascending (fun row : Employee * Department =>
                                 e_id (fst row))). }
  exists (firstn (Z.to_nat per_page) (skipn (Z.to_nat offset) all)).
  split; [| split; [reflexivity | split; [| split; [| split; [exact Hall |
            split]]]]].
  - unfold list_employees. fold offset.
    rewrite limit_offset_in_range
      by (unfold offset, bigint_max in *; lia).
    unfold all. rewrite <- firstn_map, skipn_map. reflexivity.
  - pose proof (firstn_le_length (Z.to_nat per_page)
                  (skipn (Z.to_nat offset) all)). lia.
  - apply ascending_firstn, ascending_skipn, Hall.
  - intros Hkey. unfold all, employees_joined.
    rewrite <- (inner_join_employees db Hkey).
    rewrite <- (order_by_map fst e_id), !map_map. reflexivity.
  - intros Hpast. rewrite skipn_all2 by lia. apply firstn_nil.
Qed.

Lemma list_employees_page_witness :
  exists rows,
    list_employees sample_db 2 1 = inr rows /\ map id rows = [2]
    /\ list_employees sample_db 3 1 = inr []
    /\ map id (map employee_listing (employees_joined sample_db)) = [1; 2].
Proof.
  destruct (list_employees_page sample_db 2 1) as (Hin2 & _); [lia | lia |].
  destruct Hin2 as (rows & Hrows & Hval & _ & _ & _ & Hkey & _);
    [unfold bigint_max; lia |].
  destruct (list_employees_page sample_db 3 1) as (Hin3 & _); [lia | lia |].
  destruct Hin3 as (rows' & Hrows' & _ & _ & _ & _ & _ & Hpast);
    [unfold bigint_max; lia |].
  exists rows. split; [exact Hrows | split; [| split]].
  - rewrite Hval. reflexivity.
  - rewrite Hrows'. f_equal. apply Hpast. vm_compute. discriminate.
  - rewrite Hkey; [reflexivity |].
    unfold department_key. simpl.
    repeat constructor; simpl; intuition discriminate.
Defined.

(** Without the bound it fails: page [2^63 + 1] with one row per page is a
    page [>= 1] beyond the last one, and the handler raises instead of
    returning the empty list. *)
Lemma list_employees_huge_page :
  1 <= 9223372036854775809
  /\ 1 <= 1 <= 100
  /\ Z.of_nat (List.length (employees_joined sample_db))
     <= (9223372036854775809 - 1) * 1
  /\ list_employees sample_db 9223372036854775809 1
     = inl "bigint out of range"
  /\ list_employees sample_db 9223372036854775809 1 <> inr [].
Proof.
  split; [lia | split; [lia | split; [vm_compute; discriminate | split]]].
  - reflexivity.
  - discriminate.
Qed.

(** ** [seed_database]: the delete phase *)

Lemma fk_ok_parts db :
  fk_ok db = true <->
  fk_employee_department db = true /\ fk_employee_project db = true
  /\ fk_salary_history db = true.
Proof.
  unfold fk_ok. rewrite !andb_true_iff. tauto.
Qed.

(** Emptying a table that no remaining row refers to keeps the foreign
    keys. *)
Lemma delete_salary_history_ok db :
  fk_ok db = true -> fk_ok (delete_from t_salary_history db) = true.
Proof.
  rewrite !fk_ok_parts. intros (He & Hep & _).
  repeat split; assumption.
Qed.

Lemma delete_employee_project_ok db :
  fk_ok db = true -> fk_ok (delete_from t_employee_project db) = true.
Proof.
  rewrite !fk_ok_parts. intros (He & _ & Hsh).
  repeat split; assumption.
Qed.

Lemma delete_employee_ok db :
  employee_project db = [] -> salary_history db = [] ->
  fk_ok (delete_from t_employee db) = true.
Proof.
  intros Hep Hsh. unfold fk_ok, fk_employee_department, fk_employee_project,
    fk_salary_history. simpl. rewrite Hep, Hsh. reflexivity.
Qed.

Lemma delete_project_ok db :
  employee db = [] -> employee_project db = [] -> salary_history db = [] ->
  fk_ok (delete_from t_project db) = true.
Proof.
  intros He Hep Hsh. unfold fk_ok, fk_employee_department,
    fk_employee_project, fk_salary_history. simpl.
  rewrite He, Hep, Hsh. reflexivity.
Qed.

Lemma delete_department_ok db :
  employee db = [] -> employee_project db = [] -> salary_history db = [] ->
  fk_ok (delete_from t_department db) = true.
Proof.
  intros He Hep Hsh. unfold fk_ok, fk_employee_department,
    fk_employee_project, fk_salary_history. simpl.
  rewrite He, Hep, Hsh. reflexivity.
Qed.

(** C8: [seed_database] first runs the statements that empty salary_history,
    employee_project, employee, project and department, in that order, and
    hands what they leave to the seed script (an error of theirs is the
    handler's); every table comes before each table it references; and from
    any state that satisfies the foreign keys, each of the five statements
    completes in a state that satisfies them, the last one with all five
    tables empty, so that the seed script is run on empty tables. *)
Theorem delete_phase_keeps_foreign_keys :
  delete_statements =
    [t_salary_history; t_employee_project; t_employee; t_project;
     t_department]
  /\ (forall seed_sql db,
        seed_database seed_sql db =
        match exec_deletes delete_statements db with
        | (_, Some e) => inl e
        | (states, None) =>
            match seed_sql (last states db) with
            | inl e => inl e
            | inr db' => inr ("OK", db')
            end
        end)
  /\ (forall child parent,
        In parent (references child) ->
        exists i j,
          position child delete_statements = Some i
          /\ position parent delete_statements = Some j
          /\ (i < j)%nat)
  /\ forall seed_sql db,
       fk_ok db = true ->
       let s1 := delete_from t_salary_history db in
       let s2 := delete_from t_employee_project s1 in
       let s3 := delete_from t_employee s2 in
       let s4 := delete_from t_project s3 in
       let s5 := delete_from t_department s4 in
       exec_deletes delete_statements db = ([s1; s2; s3; s4; s5], None)
       /\ Forall (fun s => fk_ok s = true) [s1; s2; s3; s4; s5]
       /\ is_empty s5 = true
       /\ seed_database seed_sql db =
          match seed_sql s5 with
          | inl e => inl e
          | inr db' => inr ("OK", db')
          end.
Proof.
  split; [reflexivity | split; [| split]].
  - intros seed_sql db. unfold seed_database.
    destruct (exec_deletes delete_statements db) as [states [e |]];
      reflexivity.
  - intros child parent Hin.
    destruct child; simpl in Hin;
      repeat (destruct Hin as [<- | Hin]); try destruct Hin;
      simpl; eexists; eexists; repeat split; lia.
  - intros seed_sql db Hdb s1 s2 s3 s4 s5.
    assert (H1 : fk_ok s1 = true) by apply delete_salary_history_ok, Hdb.
    assert (H2 : fk_ok s2 = true) by apply delete_employee_project_ok, H1.
    assert (H3 : fk_ok s3 = true) by (apply delete_employee_ok; reflexivity).
    assert (H4 : fk_ok s4 = true) by (apply delete_project_ok; reflexivity).
    assert (H5 : fk_ok s5 = true)
      by (apply delete_department_ok; reflexivity).
    assert (Hexec : exec_deletes delete_statements db =
                    ([s1; s2; s3; s4; s5], None)).
    { unfold delete_statements, exec_deletes, exec_delete.
      fold s1. rewrite H1. fold s2. rewrite H2. fold s3. rewrite H3.
      fold s4. rewrite H4. fold s5. rewrite H5. reflexivity. }
    split; [exact Hexec |].
    split; [repeat constructor; assumption |].
    split; [reflexivity |].
    unfold seed_database. rewrite Hexec. reflexivity.
Qed.

Lemma delete_phase_keeps_foreign_keys_witness :
  fst (exec_deletes delete_statements sample_db) =
    [delete_from t_salary_history sample_db;
     delete_from t_employee_project
       (delete_from t_salary_history sample_db);
     delete_from t_employee
       (delete_from t_employee_project
          (delete_from t_salary_history sample_db));
     delete_from t_project
       (delete_from t_employee
          (delete_from t_employee_project
             (delete_from t_salary_history sample_db)));
     delete_from t_department
       (delete_from t_project
          (delete_from t_employee
             (delete_from t_employee_project
                (delete_from t_salary_history sample_db))))]
  /\ snd (exec_deletes delete_statements sample_db) = None
  /\ seed_database sample_seed sample_db = inr ("OK", sample_db).
Proof.
  destruct delete_phase_keeps_foreign_keys as (_ & _ & _ & Hrun).
  destruct (Hrun sample_seed sample_db) as (Hexec & _ & _ & Hseed);
    [reflexivity |].
  rewrite Hexec, Hseed. repeat split.
Defined.

(** * Further properties of the s5 endpoints *)

(** ** [salary_history] *)

Section OrderByLe.
Context {R : Type} (leb : R -> R -> bool).
Hypothesis leb_total : forall a b, leb a b = true \/ leb b a = true.

Lemma insert_le_perm x l : Permutation (insert_le leb x l) (x :: l).
Proof.
  induction l as [| y l IH]; simpl; [reflexivity |].
  destruct (leb x y); [reflexivity |].
  rewrite IH. apply perm_swap.
Qed.

Lemma order_by_le_perm l : Permutation (order_by_le leb l) l.
Proof.
  induction l as [| x l IH]; simpl; [constructor |].
  rewrite insert_le_perm. constructor. exact IH.
Qed.

Lemma insert_le_sorted x l :
  Sorted (fun a b => leb a b = true) l ->
  Sorted (fun a b => leb a b = true) (insert_le leb x l).
Proof.
  induction 1 as [| y l Hl IH Hy]; simpl.
  - repeat constructor.
  - destruct (leb x y) eqn:Hxy.
    + constructor; [constructor; assumption |]. constructor. exact Hxy.
    + constructor; [exact IH |].
      destruct l as [| z l']; simpl.
      * constructor. destruct (leb_total x y); congruence.
      * destruct (leb x z); constructor.
        -- destruct (leb_total x y); congruence.
        -- inversion Hy. assumption.
Qed.

Lemma order_by_le_sorted l :
  Sorted (fun a b => leb a b = true) (order_by_le leb l).
Proof.
  induction l as [| x l IH]; simpl; [constructor |].
  apply insert_le_sorted, IH.
Qed.

End OrderByLe.

Lemma sorted_map {A B} (f : A -> B) (le : B -> B -> Prop) l :
  Sorted (fun a b => le (f a) (f b)) l -> Sorted le (map f l).
Proof.
  induction 1 as [| x l Hl IH Hx]; simpl; constructor; [exact IH |].
  destruct Hx; simpl; constructor. assumption.
Qed.

(** For a total order on dates, the history of an employee holds exactly
    the changes recorded for that employee, each date no later than the
    next one; an employee without any gets the empty list. *)
Theorem salary_history_sorted date_leb db emp_id :
  (forall a b, date_leb a b = true \/ date_leb b a = true) ->
  Sorted (fun a b => date_leb (change_date a) (change_date b) = true)
         (salary_history_of date_leb db emp_id)
  /\ Permutation (salary_history_of date_leb db emp_id)
                 (map salary_change (changes_of db emp_id))
  /\ (changes_of db emp_id = [] -> salary_history_of date_leb db emp_id = []).
Proof.
  intros Htotal. unfold salary_history_of. split; [| split].
  - apply (sorted_map salary_change
             (fun a b => date_leb (change_date a) (change_date b) = true)).
    apply (order_by_le_sorted
             (fun a b => date_leb (sh_change_date a) (sh_change_date b))).
    intros a b. apply Htotal.
  - apply Permutation_map, order_by_le_perm.
  - intros ->. reflexivity.
Qed.

Lemma salary_history_sorted_witness :
  Sorted (fun a b => String.leb (change_date a) (change_date b) = true)
         (salary_history_of String.leb sample_db 1)
  /\ salary_history_of String.leb sample_db 7 = [].
Proof.
  destruct (salary_history_sorted String.leb sample_db 1 String.leb_total)
    as (Hsorted & _).
  destruct (salary_history_sorted String.leb sample_db 7 String.leb_total)
    as (_ & _ & Hnone).
  split; [exact Hsorted | apply Hnone; reflexivity].
Defined.

(** ** [list_employees], page after page *)

Lemma firstn_add {A} (a b : nat) (l : list A) :
  firstn (a + b) l = (firstn a l ++ firstn b (skipn a l))%list.
Proof.
  revert l. induction a as [| a IH]; intros l; [reflexivity |].
  destruct l as [| x l]; simpl.
  - rewrite firstn_nil. reflexivity.
  - rewrite IH. reflexivity.
Qed.

(** Pages 1 to [k] of a fixed size, put one after the other, are the first
    [k * per_page] rows of the listing: no row is skipped or repeated
    between pages.  The page size and the offset of the last page are
    inside the server's [bigint] range. *)
Theorem list_employees_pages_concat db per_page k :
  1 <= per_page <= bigint_max ->
  (Z.of_nat k - 1) * per_page <= bigint_max ->
  pages_upto db per_page k =
  firstn (k * Z.to_nat per_page)
         (map employee_listing (employees_joined db)).
Proof.
  intros Hper Hlast. unfold pages_upto.
  induction k as [| k IH]; [reflexivity |].
  rewrite seq_S, flat_map_app, IH by nia.
  cbn [flat_map Nat.add]. rewrite app_nil_r.
  replace (S k * Z.to_nat per_page)%nat
    with (k * Z.to_nat per_page + Z.to_nat per_page)%nat by lia.
  rewrite firstn_add. f_equal.
  unfold page_rows, list_employees.
  rewrite limit_offset_in_range by (split; try lia; try exact Hlast; nia).
  rewrite <- firstn_map, skipn_map. do 2 f_equal.
  replace (Z.of_nat (S k) - 1) with (Z.of_nat k) by lia.
  rewrite Z2Nat.inj_mul, Nat2Z.id by lia. reflexivity.
Qed.

Lemma list_employees_pages_concat_witness :
  pages_upto sample_db 1 2 =
  map employee_listing (employees_joined sample_db).
Proof.
  rewrite (list_employees_pages_concat sample_db 1 2)
    by (unfold bigint_max; lia).
  reflexivity.
Defined.

Lemma in_firstn {A} n (l : list A) x : In x (firstn n l) -> In x l.
Proof.
  intros H. rewrite <- (firstn_skipn n l). apply in_or_app. auto.
Qed.

Lemma in_skipn {A} n (l : list A) x : In x (skipn n l) -> In x l.
Proof.
  intros H. rewrite <- (firstn_skipn n l). apply in_or_app. auto.
Qed.

(** Every row of every page is an employee of the table together with the
    name of the department row its [department_id] points to. *)
Theorem list_employees_rows_sound db page per_page rows row :
  list_employees db page per_page = inr rows ->
  In row rows ->
  exists e d,
    In e (employee db) /\ In d (department db)
    /\ e_department_id e = Some (d_id d)
    /\ row = employee_listing (e, d).
Proof.
  unfold list_employees.
  destruct (limit_offset per_page ((page - 1) * per_page) (employees_joined db))
    as [err | slice] eqn:Hslice; [discriminate |].
  apply limit_offset_inr in Hslice. subst slice.
  intros [= <-] Hin.
  apply in_map_iff in Hin as ([e d] & <- & Hin).
  apply in_firstn, in_skipn in Hin. unfold employees_joined in Hin.
  apply (Permutation_in _ (order_by_perm _ _)) in Hin.
  unfold inner_join in Hin.
  apply in_flat_map in Hin as (e' & He' & Hin).
  apply in_map_iff in Hin as (d' & [= <- <-] & Hd').
  apply filter_In in Hd' as [Hd' Hon].
  exists e', d'. repeat split; try assumption.
  unfold in_department in Hon.
  destruct (e_department_id e') as [k' |]; [| discriminate].
  apply Z.eqb_eq in Hon. subst. reflexivity.
Qed.

Lemma list_employees_rows_sound_witness :
  exists e d,
    In e (employee sample_db) /\ In d (department sample_db)
    /\ e_department_id e = Some (d_id d)
    /\ employee_listing (emp 2 "bo" 200 (Some 1), dept_eng)
       = employee_listing (e, d).
Proof.
  apply (list_employees_rows_sound sample_db 2 1
           [employee_listing (emp 2 "bo" 200 (Some 1), dept_eng)]);
    [reflexivity | left; reflexivity].
Defined.

(** ** What [department_stats] computes *)

Lemma filter_all {A} (f : A -> bool) l :
  Forall (fun x => f x = true) l -> filter f l = l.
Proof.
  induction 1 as [| x l Hx _ IH]; simpl; [reflexivity |].
  rewrite Hx, IH. reflexivity.
Qed.

Lemma filter_none {A} (f : A -> bool) l :
  Forall (fun x => f x = false) l -> filter f l = [].
Proof.
  induction 1 as [| x l Hx _ IH]; simpl; [reflexivity |].
  rewrite Hx, IH. reflexivity.
Qed.

(** The rows a left row gives in a left join all carry it. *)
Lemma left_join_rows_fst {A B} (on : A -> B -> bool) a (r : list B) :
  Forall (fun row : A * option B => fst row = a)
    match filter (on a) r with
    | [] => [(a, None)]
    | bs => map (fun b => (a, Some b)) bs
    end.
Proof.
  destruct (filter (on a) r) as [| b bs]; [repeat constructor |].
  apply Forall_map, Forall_forall. reflexivity.
Qed.

Lemma left_join_filter_left {A B} (on : A -> B -> bool) (p : A -> bool) l r :
  filter (fun row => p (fst row)) (left_join on l r) =
  left_join on (filter p l) r.
Proof.
  unfold left_join. induction l as [| a l IH]; [reflexivity |].
  cbn [flat_map filter]. rewrite filter_app, IH.
  pose proof (left_join_rows_fst on a r) as Hfst.
  destruct (p a) eqn:Hp.
  - cbn [flat_map]. f_equal. apply filter_all.
    eapply Forall_impl; [| exact Hfst]. intros row ->. exact Hp.
  - rewrite filter_none; [reflexivity |].
    eapply Forall_impl; [| exact Hfst]. intros row ->. exact Hp.
Qed.

Lemma department_by_key db d :
  department_key db -> In d (department db) ->
  filter (fun d' => d_id d' =? d_id d) (department db) = [d].
Proof.
  intros Hkey Hd.
  rewrite (filter_ext _ (fun d' => d_id d =? d_id d'))
    by (intros; apply Z.eqb_sym).
  assert (Hin : In d (filter (fun d' => d_id d =? d_id d') (department db)))
    by (apply filter_In; split; [exact Hd | apply Z.eqb_refl]).
  destruct (filter_by_key_unique (department db) (d_id d) Hkey)
    as [Hnil | [d' Hone]].
  - rewrite Hnil in Hin. destruct Hin.
  - rewrite Hone in *. destruct Hin as [-> | []]. reflexivity.
Qed.

(** With a unique department id, the rows the query selects are the join
    rows of that one department. *)
Lemma stats_rows_of_department db d :
  department_key db -> In d (department db) ->
  filter (fun r : stats_row => d_id (fst (fst r)) =? d_id d) (stats_join db)
  = department_rows db d.
Proof.
  intros Hkey Hd. unfold stats_join.
  rewrite (left_join_filter_left _
             (fun de : Department * option Employee =>
                d_id (fst de) =? d_id d)).
  rewrite (left_join_filter_left _ (fun d' => d_id d' =? d_id d)).
  rewrite (department_by_key db d Hkey Hd).
  unfold department_rows, employees_of.
  unfold left_join at 2. simpl flat_map. rewrite app_nil_r.
  destruct (filter (fun e => in_department e (d_id d)) (employee db))
    as [| e es].
  - unfold left_join. simpl.
    assert (Hnone : forall l : list EmployeeProject,
               filter (fun _ : EmployeeProject => false) l = []).
    { intros l. induction l; simpl; auto. }
    rewrite Hnone. reflexivity.
  - change ((d, Some e) :: map (fun b => (d, Some b)) es)
      with (map (fun b => (d, Some b)) (e :: es)).
    unfold left_join. rewrite flat_map_concat_map, map_map.
    rewrite <- flat_map_concat_map. reflexivity.
Qed.

Lemma non_null_app {R V} (col : R -> option V) l1 l2 :
  non_null col (l1 ++ l2) = (non_null col l1 ++ non_null col l2)%list.
Proof. unfold non_null. apply flat_map_app. Qed.

Lemma non_null_some {R A V} (col : R -> option V) (f : A -> R) v l :
  (forall a, col (f a) = Some v) ->
  non_null col (map f l) = repeat v (List.length l).
Proof.
  intros H. induction l as [| a l IH]; simpl; [reflexivity |].
  rewrite H, IH. reflexivity.
Qed.

(** A column of the employee, read over the join rows of a department,
    gives each employee once per join row. *)
Lemma employee_column {V} db d (g : Employee -> V) :
  non_null (fun r : stats_row => option_map g (snd (fst r)))
           (department_rows db d)
  = map g (weighted db (d_id d)).
Proof.
  unfold department_rows, weighted.
  destruct (employees_of db (d_id d)) as [| e0 es0] eqn:HE; [reflexivity |].
  clear HE. induction (e0 :: es0) as [| e es IH]; [reflexivity |].
  simpl flat_map. rewrite non_null_app, map_app, IH. f_equal.
  unfold employee_rows, fan_out.
  destruct (assignments db e) as [| ep eps]; [reflexivity |].
  rewrite (non_null_some _ (fun ep0 => (d, Some e, Some ep0)) (g e))
    by reflexivity.
  rewrite map_repeat. f_equal.
Qed.

(** The project column over the join rows of a department: the projects of
    the assignments of its employees. *)
Lemma project_column db d :
  non_null (fun r : stats_row => option_map ep_project_id (snd r))
           (department_rows db d)
  = flat_map (fun e => map ep_project_id (assignments db e))
             (employees_of db (d_id d)).
Proof.
  unfold department_rows.
  destruct (employees_of db (d_id d)) as [| e0 es0] eqn:HE; [reflexivity |].
  clear HE. induction (e0 :: es0) as [| e es IH]; [reflexivity |].
  simpl flat_map. rewrite non_null_app, IH. f_equal.
  unfold employee_rows.
  destruct (assignments db e) as [| ep eps]; [reflexivity |].
  induction (ep :: eps) as [| x l IHl]; simpl; [reflexivity |].
  rewrite <- IHl. reflexivity.
Qed.

Lemma department_rows_key db d :
  Forall (fun r : stats_row =>
            key_eqb (stats_key r) (d_id d, d_name d) = true)
         (department_rows db d).
Proof.
  assert (Hk : key_eqb (d_id d, d_name d) (d_id d, d_name d) = true).
  { unfold key_eqb. simpl. rewrite Z.eqb_refl, String.eqb_refl. reflexivity. }
  unfold department_rows.
  destruct (employees_of db (d_id d)) as [| e0 es0];
    [repeat constructor; exact Hk |].
  apply Forall_flat_map, Forall_forall. intros e _.
  unfold employee_rows.
  destruct (assignments db e) as [| ep eps];
    [repeat constructor; exact Hk |].
  apply Forall_map, Forall_forall. intros x _. exact Hk.
Qed.

Lemma department_rows_head db d :
  exists r rest, department_rows db d = r :: rest
                 /\ stats_key r = (d_id d, d_name d).
Proof.
  unfold department_rows.
  destruct (employees_of db (d_id d)) as [| e es]; [eauto |].
  simpl. unfold employee_rows at 1.
  destruct (assignments db e) as [| ep eps]; simpl; eauto.
Qed.

(** The record returned for an existing department, with its id a key. *)
Lemma department_stats_value db d :
  department_key db -> In d (department db) ->
  department_stats db (d_id d) =
  Some (stats_of_group ((d_id d, d_name d), department_rows db d)).
Proof.
  intros Hkey Hd. unfold department_stats. cbv zeta.
  rewrite (stats_rows_of_department db d Hkey Hd).
  destruct (department_rows_head db d) as (r & rest & Hrows & Hr).
  pose proof (department_rows_key db d) as Hall.
  rewrite Hrows in *.
  destruct (group_by_first key_eqb stats_key r rest) as [groups ->].
  unfold fetchone. cbn [map hd_error]. rewrite Hr.
  rewrite (filter_all _ _ Hall). reflexivity.
Qed.

Lemma weighted_length db dept_id :
  List.length (weighted db dept_id) =
  list_sum (map (fan_out db) (employees_of db dept_id)).
Proof.
  unfold weighted.
  induction (employees_of db dept_id) as [| e es IH]; simpl; [reflexivity |].
  rewrite length_app, repeat_length, IH. reflexivity.
Qed.

Lemma fan_out_sum_ge db es :
  (List.length es <= list_sum (map (fan_out db) es))%nat.
Proof.
  induction es as [| e es IH]; simpl; [lia |].
  unfold fan_out at 1. lia.
Qed.

(** For an existing department (its id being a key), [department_stats]
    returns the department's name; [employee_count] is the number of join
    rows of its employees, that is each employee counted once per project
    assignment (once when it has none), and [avg_salary] is the mean over
    the same rows.  The count is never below the number of employees. *)
Theorem department_stats_counts_assignments db d :
  department_key db ->
  In d (department db) ->
  exists st,
    department_stats db (d_id d) = Some st
    /\ st_department_name st = d_name d
    /\ employee_count st =
       Z.of_nat (list_sum (map (fan_out db) (employees_of db (d_id d))))
    /\ avg_salary st = sql_avg (map e_salary (weighted db (d_id d)))
    /\ headcount db (d_id d) <= employee_count st.
Proof.
  intros Hkey Hd. rewrite (department_stats_value db d Hkey Hd).
  eexists. split; [reflexivity |].
  unfold stats_of_group. cbn [st_department_name employee_count avg_salary snd].
  rewrite !employee_column. unfold sql_count.
  rewrite length_map, weighted_length.
  repeat split.
  unfold headcount. apply inj_le, fan_out_sum_ge.
Qed.

Lemma department_stats_counts_assignments_witness :
  exists st,
    department_stats sample_db 1 = Some st /\ employee_count st = 3.
Proof.
  destruct (department_stats_counts_assignments sample_db dept_eng)
    as (st & Hst & _ & Hcount & _).
  - unfold department_key. simpl.
    repeat constructor; simpl; intuition discriminate.
  - left. reflexivity.
  - exists st. split; [exact Hst | exact Hcount].
Defined.

(** When no employee of the department has more than one assignment, the
    count is the number of employees and the average is the mean of their
    salaries. *)
Theorem department_stats_exact_without_fan_out db d :
  department_key db ->
  In d (department db) ->
  Forall (fun e => (List.length (assignments db e) <= 1)%nat)
         (employees_of db (d_id d)) ->
  exists st,
    department_stats db (d_id d) = Some st
    /\ employee_count st = headcount db (d_id d)
    /\ avg_salary st = mean_salary db (d_id d).
Proof.
  intros Hkey Hd Hflat. rewrite (department_stats_value db d Hkey Hd).
  eexists. split; [reflexivity |].
  unfold stats_of_group. cbn [employee_count avg_salary snd].
  rewrite !employee_column. unfold sql_count, headcount, mean_salary.
  assert (Hw : weighted db (d_id d) = employees_of db (d_id d)).
  { unfold weighted.
    induction Hflat as [| e es He _ IH]; simpl; [reflexivity |].
    rewrite IH. unfold fan_out.
    replace (Nat.max 1 (List.length (assignments db e))) with 1%nat by lia.
    reflexivity. }
  rewrite Hw, length_map. split; reflexivity.
Qed.

Lemma department_stats_exact_without_fan_out_witness :
  exists st,
    department_stats flat_db 1 = Some st
    /\ employee_count st = 2 /\ avg_salary st = Some (150 # 1).
Proof.
  destruct (department_stats_exact_without_fan_out flat_db dept_eng)
    as (st & Hst & Hcount & Havg).
  - unfold department_key. simpl.
    repeat constructor; simpl; intuition discriminate.
  - left. reflexivity.
  - repeat constructor.
  - exists st. split; [exact Hst | split; [exact Hcount | exact Havg]].
Defined.

(** *** [COUNT(DISTINCT ...)] *)

Lemma distinct_in l x : In x (distinct Z.eqb l) <-> In x l.
Proof.
  induction l as [| k l IH]; simpl; [tauto |].
  rewrite filter_In, IH, negb_true_iff, Z.eqb_neq.
  destruct (Z.eq_dec k x); intuition.
Qed.

Lemma distinct_nodup l : NoDup (distinct Z.eqb l).
Proof.
  induction l as [| k l IH]; simpl; constructor.
  - rewrite filter_In, negb_true_iff, Z.eqb_neq. tauto.
  - apply NoDup_filter, IH.
Qed.

Lemma distinct_length_same l1 l2 :
  (forall x, In x l1 <-> In x l2) ->
  List.length (distinct Z.eqb l1) = List.length (distinct Z.eqb l2).
Proof.
  intros Hsame. apply Nat.le_antisymm;
    (apply NoDup_incl_length; [apply distinct_nodup |]);
    intros x Hx; apply (proj2 (distinct_in _ _));
    apply (proj1 (distinct_in _ _)) in Hx; apply Hsame, Hx.
Qed.

(** For an existing department (its id being a key), [project_count] is the
    number of distinct projects that employees of the department are
    assigned to. *)
Theorem department_stats_project_count db d :
  department_key db ->
  In d (department db) ->
  exists st,
    department_stats db (d_id d) = Some st
    /\ project_count st = projects_of db (d_id d).
Proof.
  intros Hkey Hd. rewrite (department_stats_value db d Hkey Hd).
  eexists. split; [reflexivity |].
  unfold stats_of_group. cbn [project_count snd].
  rewrite project_column. unfold projects_of, sql_count. f_equal.
  apply distinct_length_same. intros x.
  rewrite in_flat_map, in_map_iff. split.
  - intros (e & He & Hx). apply in_map_iff in Hx as (ep & <- & Hep).
    apply filter_In in Hep as [Hep Hid].
    exists ep. split; [reflexivity |]. apply filter_In.
    split; [exact Hep |]. apply existsb_exists. exists e.
    split; [exact He |]. rewrite Z.eqb_sym. exact Hid.
  - intros (ep & <- & Hep). apply filter_In in Hep as [Hep Hex].
    apply existsb_exists in Hex as (e & He & Hid).
    exists e. split; [exact He |]. apply in_map, filter_In.
    split; [exact Hep |]. rewrite Z.eqb_sym. exact Hid.
Qed.

Lemma department_stats_project_count_witness :
  exists st,
    department_stats sample_db 1 = Some st /\ project_count st = 2.
Proof.
  destruct (department_stats_project_count sample_db dept_eng)
    as (st & Hst & Hcount).
  - unfold department_key. simpl.
    repeat constructor; simpl; intuition discriminate.
  - left. reflexivity.
  - exists st. split; [exact Hst | exact Hcount].
Defined.

(** ** [seed_database] as a whole *)

Lemma exec_deletes_empties db :
  fk_ok db = true ->
  exists states,
    exec_deletes delete_statements db = (states, None)
    /\ last states db = empty_db.
Proof.
  intros Hdb.
  set (s1 := delete_from t_salary_history db).
  set (s2 := delete_from t_employee_project s1).
  set (s3 := delete_from t_employee s2).
  set (s4 := delete_from t_project s3).
  set (s5 := delete_from t_department s4).
  assert (H1 : fk_ok s1 = true) by apply delete_salary_history_ok, Hdb.
  assert (H2 : fk_ok s2 = true) by apply delete_employee_project_ok, H1.
  assert (H3 : fk_ok s3 = true) by (apply delete_employee_ok; reflexivity).
  assert (H4 : fk_ok s4 = true) by (apply delete_project_ok; reflexivity).
  assert (H5 : fk_ok s5 = true) by (apply delete_department_ok; reflexivity).
  exists [s1; s2; s3; s4; s5]. split; [| reflexivity].
  unfold delete_statements, exec_deletes, exec_delete.
  fold s1. rewrite H1. fold s2. rewrite H2. fold s3. rewrite H3.
  fold s4. rewrite H4. fold s5. rewrite H5. reflexivity.
Qed.

(** From any content that satisfies the foreign keys, [seed_database] runs
    the seed script on empty tables: its result does not depend on what the
    tables held, and seeding again after a successful seed gives the same
    tables. *)
Theorem seed_database_ignores_content seed_sql db :
  fk_ok db = true ->
  seed_database seed_sql db =
    match seed_sql empty_db with
    | inl e => inl e
    | inr db' => inr ("OK", db')
    end
  /\ forall db',
       seed_database seed_sql db = inr ("OK", db') ->
       fk_ok db' = true ->
       seed_database seed_sql db' = inr ("OK", db').
Proof.
  assert (Hrun : forall x, fk_ok x = true ->
            seed_database seed_sql x =
            match seed_sql empty_db with
            | inl e => inl e
            | inr db' => inr ("OK", db')
            end).
  { intros x Hx. unfold seed_database.
    destruct (exec_deletes_empties x Hx) as (states & -> & ->).
    reflexivity. }
  intros Hdb. split; [apply Hrun, Hdb |].
  intros db' Hseed Hdb'. rewrite (Hrun db' Hdb'), <- (Hrun db Hdb).
  exact Hseed.
Qed.

Lemma seed_database_ignores_content_witness :
  seed_database sample_seed flat_db = inr ("OK", sample_db)
  /\ seed_database sample_seed sample_db = inr ("OK", sample_db).
Proof.
  destruct (seed_database_ignores_content sample_seed flat_db)
    as (Hrun & Hagain); [reflexivity |].
  split; [rewrite Hrun; reflexivity |].
  apply Hagain; [rewrite Hrun; reflexivity | reflexivity].
Defined.

End S5Facts.
